(** * AdHunt3r: the observer's ad classification and the tab coordinator

    A shallow embedding of the parts of the extension that its specification
    makes claims about:

    - [Observer]: the page-embedded detection pass ([detectAdTypeCommon],
      [getBestAdDuration], the ad-sequence context and the two position
      classifiers) of the injected script;
    - [Sender]: the content script's de-duplicating [sendMessage];
    - [Coordinator]: the background service worker's message listener with its
      per-tab records and the two rolling 24-hour collections.

    JavaScript numbers that hold seconds are rationals ([Q]); millisecond
    clocks and counters are integers ([Z]).  The clock ([Date.now()]) and what
    the page shows are inputs of every step. *)

From Stdlib Require Import ZArith QArith Qround String Ascii List Bool Lia Sorted.
From stdpp Require Import gmap strings list sorting.

Local Open Scope Z_scope.

(** ** JavaScript numbers and strings *)

Definition Qltb (x y : Q) : bool := negb (Qle_bool y x).
Definition Qgtb (x y : Q) : bool := Qltb y x.
Definition Qgeb (x y : Q) : bool := Qle_bool y x.

(** [Math.round]: the nearest integer, halves going up. *)
Definition Math_round (x : Q) : Z := Qfloor (x + (1 # 2))%Q.

Definition Qabs_diff (x y : Q) : Q :=
  if Qle_bool y x then (x - y)%Q else (y - x)%Q.

Definition is_digit (c : ascii) : bool :=
  let n := nat_of_ascii c in (48 <=? n)%nat && (n <=? 57)%nat.

Definition digit_val (c : ascii) : Z := Z.of_nat (nat_of_ascii c) - 48.

(** The digits a [\d+] match consumes at the head of a string, as a number. *)
Fixpoint read_digits (acc : Z) (s : string) : Z :=
  match s with
  | String c rest => if is_digit c then read_digits (10 * acc + digit_val c) rest else acc
  | EmptyString => acc
  end.

(** [parseInt(text.match(/(\d+)/)[1])]: the first run of digits of the text,
    [None] when the text has no digit. *)
Fixpoint match_digits (s : string) : option Z :=
  match s with
  | String c rest => if is_digit c then Some (read_digits 0 s) else match_digits rest
  | EmptyString => None
  end.

(** Truthiness of a string: non-empty. *)
Definition nonempty (s : string) : bool :=
  match s with EmptyString => false | _ => true end.

Module Observer.

(** ** Data of the detection pass *)

Inductive AdType :=
  | skippable | bumper | non_skippable_short | non_skippable_medium
  | non_skippable_long | non_skippable | unknown_type.

Inductive AdPosition := pre_roll | mid_roll | post_roll | unknown.

Inductive DurationSource :=
  | real_tracking | video_element | progress_total | skip_calculation
  | dom_text | progress_bar | skip_inference | estimation | none.

(** The [<video>] element; [duration] is [None] when it is [NaN]. *)
Record VideoElement := {
  currentTime : Q;
  duration : option Q;
  ended : bool;
  paused : bool;
  readyState : Z
}.

(** [x || 0] on the element's duration. *)
Definition duration_or_0 (v : VideoElement) : Q :=
  match duration v with Some d => d | None => 0%Q end.

(** One entry of [adDurationTracker.progressUpdates]. *)
Record ProgressInfo := {
  remainingTime : Z;
  pi_timestamp : Z;
  total : option Q
}.

Record Tracker := {
  startTime : Z;
  endTime : option Z;
  realDuration : option Z;
  progressUpdates : list ProgressInfo;
  isTracking : bool
}.

(** What the regular expression of the time displays captured. *)
Inductive TimeMatch :=
  | MinSec (m s : Z)      (* groups 1 and 2, [m:ss] *)
  | Seconds (n : Z)       (* one of the groups 3, 5, 6, 7, 8 *)
  | SegundosOnly.         (* group 4 alone: the code reads no group *)

(** What one detection pass sees of the page. *)
Record Page := {
  skipButton : option string;       (* first AD_SELECTORS.skipButton hit, its trimmed text *)
  adContainer : bool;               (* adContainer is truthy after both searches *)
  bodyHasSkipPhrase : bool;         (* body text includes one of skipTexts *)
  nonSkippableMarker : bool;        (* an AD_SELECTORS.nonSkippable element exists *)
  skipTextElements : list string;   (* trimmed texts of the AD_SELECTORS.skipText hits, in order *)
  timeDisplays : list (option TimeMatch); (* AD_SELECTORS.time hits, in order, with their match *)
  progressBarLabel : option (Z * Z);      (* the ad progress list's [m:ss] label *)
  adContentSignature : string;      (* joined texts read by detectConsecutiveAdChange *)
  video : option VideoElement;
  lengthSeconds : option Q;         (* ytInitialPlayerResponse.videoDetails.lengthSeconds *)
  ariaValueNow : option Q;          (* .ytp-progress-bar aria-valuenow *)
  ariaValueMax : option Q;          (* .ytp-progress-bar aria-valuemax *)
  playerArgT : option Q             (* ytplayer.config.args.t *)
}.

Record Descriptor := {
  type : AdType;
  isSkippable : bool;
  adDuration : Z;
  durationDetected : bool;
  durationSource : DurationSource;
  position : AdPosition;
  skipText : string;
  consecutiveAdNumber : Z
}.

(** The globals of the injected script that the pass reads and writes. *)
Record State := {
  isInAdSequence : bool;
  consecutiveAdCount : Z;
  lastVideoContextTime : Q;
  lastVideoContextDuration : Q;
  lastVideoContextTimestamp : Z;
  lastVideoCurrentTime : Q;
  lastVideoDuration : Q;
  videoPauseTime : Q;
  isVideoPaused : bool;
  lastAdContent : string;
  lastAdDebugVideoId : option string;
  adDurationTracker : option Tracker
}.

Definition initial : State := {|
  isInAdSequence := false;
  consecutiveAdCount := 0;
  lastVideoContextTime := 0;
  lastVideoContextDuration := 0;
  lastVideoContextTimestamp := 0;
  lastVideoCurrentTime := 0;
  lastVideoDuration := 0;
  videoPauseTime := 0;
  isVideoPaused := false;
  lastAdContent := "";
  lastAdDebugVideoId := None;
  adDurationTracker := None
|}.

(** Assignments to the globals. *)
Definition set_sequence (b : bool) (n : Z) (st : State) : State :=
  {| isInAdSequence := b; consecutiveAdCount := n;
     lastVideoContextTime := lastVideoContextTime st;
     lastVideoContextDuration := lastVideoContextDuration st;
     lastVideoContextTimestamp := lastVideoContextTimestamp st;
     lastVideoCurrentTime := lastVideoCurrentTime st;
     lastVideoDuration := lastVideoDuration st;
     videoPauseTime := videoPauseTime st;
     isVideoPaused := isVideoPaused st;
     lastAdContent := lastAdContent st;
     lastAdDebugVideoId := lastAdDebugVideoId st;
     adDurationTracker := adDurationTracker st |}.

Definition set_context (t d : Q) (now : Z) (st : State) : State :=
  {| isInAdSequence := isInAdSequence st;
     consecutiveAdCount := consecutiveAdCount st;
     lastVideoContextTime := t;
     lastVideoContextDuration := d;
     lastVideoContextTimestamp := now;
     lastVideoCurrentTime := lastVideoCurrentTime st;
     lastVideoDuration := lastVideoDuration st;
     videoPauseTime := videoPauseTime st;
     isVideoPaused := isVideoPaused st;
     lastAdContent := lastAdContent st;
     lastAdDebugVideoId := lastAdDebugVideoId st;
     adDurationTracker := adDurationTracker st |}.

Definition set_base_video (t d : Q) (st : State) : State :=
  {| isInAdSequence := isInAdSequence st;
     consecutiveAdCount := consecutiveAdCount st;
     lastVideoContextTime := lastVideoContextTime st;
     lastVideoContextDuration := lastVideoContextDuration st;
     lastVideoContextTimestamp := lastVideoContextTimestamp st;
     lastVideoCurrentTime := t;
     lastVideoDuration := d;
     videoPauseTime := videoPauseTime st;
     isVideoPaused := isVideoPaused st;
     lastAdContent := lastAdContent st;
     lastAdDebugVideoId := lastAdDebugVideoId st;
     adDurationTracker := adDurationTracker st |}.

Definition set_pause (t : Q) (b : bool) (st : State) : State :=
  {| isInAdSequence := isInAdSequence st;
     consecutiveAdCount := consecutiveAdCount st;
     lastVideoContextTime := lastVideoContextTime st;
     lastVideoContextDuration := lastVideoContextDuration st;
     lastVideoContextTimestamp := lastVideoContextTimestamp st;
     lastVideoCurrentTime := lastVideoCurrentTime st;
     lastVideoDuration := lastVideoDuration st;
     videoPauseTime := t;
     isVideoPaused := b;
     lastAdContent := lastAdContent st;
     lastAdDebugVideoId := lastAdDebugVideoId st;
     adDurationTracker := adDurationTracker st |}.

Definition set_ad (content : string) (id : option string) (tr : option Tracker)
    (st : State) : State :=
  {| isInAdSequence := isInAdSequence st;
     consecutiveAdCount := consecutiveAdCount st;
     lastVideoContextTime := lastVideoContextTime st;
     lastVideoContextDuration := lastVideoContextDuration st;
     lastVideoContextTimestamp := lastVideoContextTimestamp st;
     lastVideoCurrentTime := lastVideoCurrentTime st;
     lastVideoDuration := lastVideoDuration st;
     videoPauseTime := videoPauseTime st;
     isVideoPaused := isVideoPaused st;
     lastAdContent := content;
     lastAdDebugVideoId := id;
     adDurationTracker := tr |}.

(** ** Duration tracking *)

Definition startAdDurationTracking (now : Z) (st : State) : State :=
  set_ad (lastAdContent st) (lastAdDebugVideoId st)
    (Some {| startTime := now; endTime := None; realDuration := None;
             progressUpdates := []; isTracking := true |}) st.

Record BestDuration := {
  bd_duration : Z;
  bd_isDetected : bool;
  bd_source : DurationSource
}.

Definition no_duration : BestDuration :=
  {| bd_duration := 0; bd_isDetected := false; bd_source := none |}.

(** [updates.filter(u => u.total && u.total > 0)] *)
Definition has_total (u : ProgressInfo) : bool :=
  match total u with Some t => Qgtb t 0 | None => false end.

(** The countdown extrapolation of step 3. *)
Definition skip_calculation_of (updates : list ProgressInfo) : BestDuration :=
  match updates with
  | firstSkip :: _ :: _ =>
      let lastSkip := List.last updates firstSkip in
      let timeDiff := (inject_Z (pi_timestamp lastSkip - pi_timestamp firstSkip) / 1000)%Q in
      let skipDiff := remainingTime firstSkip - remainingTime lastSkip in
      if (0 <? skipDiff) && Qgtb timeDiff 0 then
        let estimatedTotal :=
          (inject_Z (remainingTime firstSkip)
           + timeDiff * inject_Z (remainingTime firstSkip) / inject_Z skipDiff)%Q in
        if Qgtb estimatedTotal 0 && Qltb estimatedTotal 300 then
          {| bd_duration := Math_round estimatedTotal; bd_isDetected := true;
             bd_source := skip_calculation |}
        else no_duration
      else no_duration
  | _ => no_duration
  end.

(** Step 2: the video element's own duration, when it can be an ad's. *)
Definition video_element_duration (v : option VideoElement) : option BestDuration :=
  match v with
  | Some el =>
      match duration el with
      | Some d =>
          if Qgtb d 0 && Qltb d 300 then
            Some {| bd_duration := Math_round d; bd_isDetected := true;
                    bd_source := video_element |}
          else None
      | None => None
      end
  | None => None
  end.

(** Step 3: what the progress updates tell. *)
Definition progress_duration (updates : list ProgressInfo) : BestDuration :=
  match updates with
  | [] => no_duration
  | u0 :: _ =>
      match List.filter has_total updates with
      | t0 :: ts =>
          match total (List.last (t0 :: ts) t0) with
          | Some latestTotal =>
              {| bd_duration := Math_round latestTotal; bd_isDetected := true;
                 bd_source := progress_total |}
          | None => no_duration
          end
      | [] => skip_calculation_of updates
      end
  end.

Definition getBestAdDuration (tr : Tracker) (v : option VideoElement) : BestDuration :=
  let later :=
    match video_element_duration v with
    | Some b => b
    | None => progress_duration (progressUpdates tr)
    end in
  match realDuration tr with
  | Some r =>
      if 0 <? r
      then {| bd_duration := r; bd_isDetected := true; bd_source := real_tracking |}
      else later
  | None => later
  end.

(** ** The ad-sequence context *)

Definition resetAdDataVariables (st : State) : State :=
  set_ad "" (lastAdDebugVideoId st) (adDurationTracker st)
    (set_sequence false (consecutiveAdCount st) (set_pause 0 false st)).

Definition startAdSequence (st : State) : State :=
  if negb (isInAdSequence st) then
    resetAdDataVariables (set_sequence true 0 st)
  else
    resetAdDataVariables (set_sequence (isInAdSequence st) (consecutiveAdCount st + 1) st).

Definition endAdSequence (st : State) : State :=
  resetAdDataVariables (set_sequence false 0 st).

(** [detectConsecutiveAdChange]: [true] when the ad's rendered text changed. *)
Definition detectConsecutiveAdChange (content : string) (st : State) : bool * State :=
  if String.eqb content (lastAdContent st) then (false, st)
  else
    let st1 := set_ad content (lastAdDebugVideoId st) (adDurationTracker st) st in
    if nonempty content then (true, resetAdDataVariables st1) else (false, st1).

Definition updateVideoContext (v : option VideoElement) (now : Z)
    (currentTime totalDuration : Q) (st : State) : State :=
  let st1 :=
    match v with
    | Some el =>
        let s1 := set_base_video currentTime totalDuration st in
        let s2 :=
          if paused el && negb (isVideoPaused s1) && Qgtb currentTime 0
          then set_pause currentTime true s1 else s1 in
        if negb (paused el) && isVideoPaused s2
        then set_pause (videoPauseTime s2) false s2 else s2
    | None => st
    end in
  if negb (isInAdSequence st1) then set_context currentTime totalDuration now st1
  else if consecutiveAdCount st1 =? 1 then set_context currentTime totalDuration now st1
  else st1.

(** ** The detection pass *)

Fixpoint first_nonempty (texts : list string) : string :=
  match texts with
  | t :: rest => if nonempty t then t else first_nonempty rest
  | [] => ""
  end.

(** The pass's [skipText]: the skip button's text, else the first non-empty
    text among the skip-text elements. *)
Definition readSkipText (p : Page) : string :=
  let fromButton := match skipButton p with Some t => t | None => "" end in
  if nonempty fromButton then fromButton else first_nonempty (skipTextElements p).

(** [isSkippable] as it stands before the duration is estimated. *)
Definition readSkippable (p : Page) (text : string) : bool :=
  let s0 := match skipButton p with Some _ => true | None => false end in
  let s1 := if negb s0 then bodyHasSkipPhrase p else s0 in
  let s2 := if negb s1 then (if nonSkippableMarker p then false else s1) else s1 in
  if negb s2 && nonempty text
  then (match match_digits text with Some _ => true | None => s2 end)
  else s2.

(** The locals the estimation chain assigns. *)
Record Locals := {
  l_isSkippable : bool;
  l_adDuration : Z;
  l_durationDetected : bool;
  l_durationSource : DurationSource
}.

Definition useBestDuration (b : BestDuration) (l : Locals) : Locals :=
  if 0 <? bd_duration b then
    {| l_isSkippable := l_isSkippable l; l_adDuration := bd_duration b;
       l_durationDetected := bd_isDetected b; l_durationSource := bd_source b |}
  else l.

Definition applyTimeMatch (tm : TimeMatch) (l : Locals) : Locals :=
  {| l_isSkippable := l_isSkippable l;
     l_adDuration :=
       match tm with
       | MinSec m s => m * 60 + s
       | Seconds n => if (0 <? n) && (n <? 300) then n else l_adDuration l
       | SegundosOnly => l_adDuration l
       end;
     l_durationDetected := true;
     l_durationSource := dom_text |}.

(** The loop over AD_SELECTORS.time; it stops at the first text that matches. *)
Fixpoint scanTimeDisplays (found : list (option TimeMatch)) (l : Locals) : Locals :=
  match found with
  | [] => l
  | m :: rest =>
      if negb (l_durationDetected l) then
        match m with
        | Some tm => applyTimeMatch tm l
        | None => scanTimeDisplays rest l
        end
      else scanTimeDisplays rest l
  end.

Definition useDomText (p : Page) (l : Locals) : Locals :=
  if l_adDuration l =? 0 then scanTimeDisplays (timeDisplays p) l else l.

Definition useProgressBar (p : Page) (l : Locals) : Locals :=
  if l_adDuration l =? 0 then
    match progressBarLabel p with
    | Some (m, s) =>
        {| l_isSkippable := l_isSkippable l; l_adDuration := m * 60 + s;
           l_durationDetected := true; l_durationSource := progress_bar |}
    | None => l
    end
  else l.

Definition inferred (d : Z) : Locals :=
  {| l_isSkippable := true; l_adDuration := d;
     l_durationDetected := true; l_durationSource := skip_inference |}.

Definition useSkipInference (text : string) (l : Locals) : Locals :=
  if (l_adDuration l =? 0) && nonempty text then
    match match_digits text with
    | Some remaining =>
        if remaining <=? 6 then inferred 6
        else if remaining <=? 15 then inferred 15
        else if remaining <=? 20 then inferred 20
        else l
    | None => l
    end
  else l.

Definition useEstimation (p : Page) (l : Locals) : Locals :=
  if l_adDuration l =? 0 then
    if negb (l_isSkippable l) && adContainer p then
      {| l_isSkippable := l_isSkippable l; l_adDuration := 6;
         l_durationDetected := false; l_durationSource := estimation |}
    else if l_isSkippable l then
      {| l_isSkippable := l_isSkippable l; l_adDuration := 30;
         l_durationDetected := false; l_durationSource := estimation |}
    else
      {| l_isSkippable := l_isSkippable l; l_adDuration := l_adDuration l;
         l_durationDetected := l_durationDetected l; l_durationSource := estimation |}
  else l.

Definition estimateDuration (tr : Tracker) (p : Page) : Locals :=
  let text := readSkipText p in
  let l0 := {| l_isSkippable := readSkippable p text; l_adDuration := 0;
               l_durationDetected := false; l_durationSource := none |} in
  useEstimation p
    (useSkipInference text
       (useProgressBar p
          (useDomText p
             (useBestDuration (getBestAdDuration tr (video p)) l0)))).

(** The assignment of [adType]. *)
Definition adTypeOf (skippableNow : bool) (dur : Z) (container : bool) : AdType :=
  if skippableNow then skippable
  else if 0 <? dur then
    if dur <=? 6 then bumper
    else if dur <=? 15 then non_skippable_short
    else if dur <=? 30 then non_skippable_medium
    else non_skippable_long
  else if container then non_skippable
  else unknown_type.

(** The host video's time and duration as the pass reads them off the page,
    before the sequence context is consulted. *)
Definition readVideoTimes (p : Page) (el : VideoElement) : Q * Q :=
  let totalDuration0 := match lengthSeconds p with Some l => l | None => 0%Q end in
  let '(videoCurrentTime1, totalDuration1) :=
    match ariaValueNow p, ariaValueMax p with
    | Some progress, Some max =>
        if Qgtb max 0
        then (progress, if Qeq_bool totalDuration0 0 then max else totalDuration0)
        else (0%Q, totalDuration0)
    | _, _ => (0%Q, totalDuration0)
    end in
  let videoCurrentTime2 :=
    if Qeq_bool videoCurrentTime1 0 then
      match playerArgT p with Some t => t | None => videoCurrentTime1 end
    else videoCurrentTime1 in
  if Qeq_bool videoCurrentTime2 0 then
    let elementDuration := duration_or_0 el in
    if Qgtb elementDuration 60
    then (currentTime el,
          if Qeq_bool totalDuration1 0 then elementDuration else totalDuration1)
    else (videoCurrentTime2, totalDuration1)
  else (videoCurrentTime2, totalDuration1).

(** The branches that assign [adPosition]. *)
Definition positionOf (el : VideoElement) (videoCurrentTime totalDuration : Q) : AdPosition :=
  if Qgtb totalDuration 0 then
    let videoProgress := (videoCurrentTime / totalDuration)%Q in
    if (ended el || Qltb (Qabs_diff videoCurrentTime totalDuration) 3
        || Qgeb videoProgress (9 # 10)) && negb (paused el)
    then post_roll
    else if Qle_bool videoCurrentTime 10 || Qle_bool videoProgress (1 # 20)
    then pre_roll
    else mid_roll
  else
    if ended el || Qgeb videoCurrentTime 300 then post_roll
    else if Qle_bool videoCurrentTime 10 then pre_roll
    else mid_roll.

(** The position step of the pass: [adPosition] and the globals after it. *)
Definition detectAdPosition (p : Page) (now : Z) (st : State) : AdPosition * State :=
  match video p with
  | None => (unknown, st)
  | Some el =>
      let '(videoCurrentTime, totalDuration) := readVideoTimes p el in
      let st1 :=
        if Qgtb videoCurrentTime 0 && Qgtb totalDuration 0
        then updateVideoContext (video p) now videoCurrentTime totalDuration st
        else st in
      if (1 <? consecutiveAdCount st1) && Qgtb (lastVideoContextTime st1) 0
         && Qgtb (lastVideoContextDuration st1) 0
      then (positionOf el (lastVideoContextTime st1) (lastVideoContextDuration st1), st1)
      else (positionOf el videoCurrentTime totalDuration, st1)
  end.

(** The descriptor of the catch-all handler. *)
Definition failedDescriptor (st : State) : Descriptor :=
  {| type := unknown_type; isSkippable := false; adDuration := 0;
     durationDetected := false; durationSource := none; position := unknown;
     skipText := ""; consecutiveAdNumber := consecutiveAdCount st |}.

(** [detectAdTypeCommon]; reading a field of the tracker while it is [null]
    throws, and the catch-all handler answers. *)
Definition detectAdTypeCommon (p : Page) (now : Z) (st : State) : Descriptor * State :=
  let st0 := startAdSequence st in
  match adDurationTracker st0 with
  | None => (failedDescriptor st0, st0)
  | Some tr =>
      let l := estimateDuration tr p in
      let adType := adTypeOf (l_isSkippable l) (l_adDuration l) (adContainer p) in
      let '(adPosition, st1) := detectAdPosition p now st0 in
      ({| type := adType; isSkippable := l_isSkippable l;
          adDuration := l_adDuration l;
          durationDetected := l_durationDetected l;
          durationSource := l_durationSource l;
          position := adPosition;
          skipText := readSkipText p;
          consecutiveAdNumber := consecutiveAdCount st1 |}, st1)
  end.

Definition detectAdTypeBasic := detectAdTypeCommon.

(** The container the type assignment saw: the catch-all handler assigns the
    type without having one. *)
Definition containerSeen (p : Page) (st : State) : bool :=
  match adDurationTracker (startAdSequence st) with
  | Some _ => adContainer p
  | None => false
  end.

(** What [trySendDebugInfo] does when the page shows the ad [adId]: a new ad
    id captures the video's time and restarts the tracker, then the basic
    detection runs. *)
Definition captureVideoTime (p : Page) (st : State) : State :=
  match video p with
  | Some el =>
      let d0 := duration_or_0 el in
      let d :=
        if Qeq_bool d0 0 then
          match lengthSeconds p with
          | Some l => l
          | None =>
              match ariaValueMax p with
              | Some max => if Qgtb max 0 then max else d0
              | None => d0
              end
          end
        else d0 in
      set_context (currentTime el) d (lastVideoContextTimestamp st)
        (set_pause (currentTime el) (isVideoPaused st) st)
  | None => st
  end.

Definition sampleAd (adId : string) (p : Page) (now : Z) (st : State) : Descriptor * State :=
  let st1 :=
    if negb (bool_decide (lastAdDebugVideoId st = Some adId)) then
      resetAdDataVariables (startAdDurationTracking now (captureVideoTime p st))
    else snd (detectConsecutiveAdChange (adContentSignature p) st) in
  let '(d, st2) := detectAdTypeBasic p now st1 in
  (d, set_ad (lastAdContent st2) (Some adId) (adDurationTracker st2) st2).

(** The positions a run of passes reports, one per observed ad. *)
Fixpoint samplePositions (ads : list (string * Page * Z)) (st : State) : list AdPosition :=
  match ads with
  | [] => []
  | (adId, p, now) :: rest =>
      let '(d, st1) := sampleAd adId p now st in
      position d :: samplePositions rest st1
  end.

(** ** The advanced classifier *)

Definition detectarPosicionAnuncio (v : option VideoElement) (st : State)
    (adStartTime videoDuration : Q) : AdPosition :=
  if Qeq_bool videoDuration 0 || Qltb videoDuration 30 then unknown
  else
    match v with
    | None => unknown
    | Some el =>
        let referenceTime :=
          if Qgtb (videoPauseTime st) 0 then videoPauseTime st
          else if Qgtb (lastVideoContextTime st) 0 then lastVideoContextTime st
          else if Qgtb adStartTime 0 then adStartTime
          else currentTime el in
        let finalVideoDuration :=
          if Qeq_bool videoDuration 0 && Qgtb (lastVideoContextDuration st) 0
          then lastVideoContextDuration st
          else if Qeq_bool videoDuration 0 then duration_or_0 el
          else videoDuration in
        let isVideoEnded := ended el || (4 <=? readyState el) in
        let preRollThreshold := (finalVideoDuration * (1 # 20))%Q in
        let postRollThreshold := (finalVideoDuration * (9 # 10))%Q in
        let percentage :=
          if Qgtb finalVideoDuration 0 then (referenceTime / finalVideoDuration)%Q
          else 0%Q in
        if Qle_bool referenceTime preRollThreshold || Qle_bool referenceTime 10
        then pre_roll
        else if Qgeb referenceTime postRollThreshold || isVideoEnded
                || Qgtb percentage (17 # 20)
        then post_roll
        else mid_roll
    end.

(** ** The type rule in the specification's words

    [isSkippable] gives [skippable]; else a positive duration gives [bumper]
    up to 6 seconds, [non_skippable_short] up to 15, [non_skippable_medium] up
    to 30 and [non_skippable_long] above; else [non_skippable] when an ad
    container was detected, and [unknown] otherwise. *)
Definition specType (skippableNow : bool) (dur : Z) (containerDetected : bool) : AdType :=
  match skippableNow with
  | true => skippable
  | false =>
      if decide (dur > 0) then
        if decide (dur <= 6) then bumper
        else if decide (dur <= 15) then non_skippable_short
        else if decide (dur <= 30) then non_skippable_medium
        else non_skippable_long
      else if containerDetected then non_skippable else unknown_type
  end.

Definition known_position (pos : AdPosition) : Prop :=
  pos = pre_roll \/ pos = mid_roll \/ pos = post_roll.

(** ** Pages of the scenarios *)

Definition videoAt (t d : Q) : VideoElement :=
  {| currentTime := t; duration := Some d; ended := false; paused := false;
     readyState := 1 |}.

(** A page that shows an ad and nothing to tell its duration or skip state. *)
Definition barePage (v : VideoElement) : Page :=
  {| skipButton := None; adContainer := true; bodyHasSkipPhrase := false;
     nonSkippableMarker := false; skipTextElements := []; timeDisplays := [];
     progressBarLabel := None; adContentSignature := ""; video := Some v;
     lengthSeconds := None; ariaValueNow := None; ariaValueMax := None;
     playerArgT := None |}.

(** The host video is at [t] of [d] seconds on the progress bar. *)
Definition hostPage (v : VideoElement) (t d : Q) : Page :=
  {| skipButton := None; adContainer := true; bodyHasSkipPhrase := false;
     nonSkippableMarker := false; skipTextElements := []; timeDisplays := [];
     progressBarLabel := None; adContentSignature := ""; video := Some v;
     lengthSeconds := Some d; ariaValueNow := Some t; ariaValueMax := Some d;
     playerArgT := None |}.

(** An ad plays in the video element while the player response still gives
    the host video's length [host]; the progress bar follows the ad. *)
Definition adPlayingPage (adTime adLength host : Q) : Page :=
  {| skipButton := None; adContainer := true; bodyHasSkipPhrase := false;
     nonSkippableMarker := false; skipTextElements := []; timeDisplays := [];
     progressBarLabel := None; adContentSignature := "";
     video := Some (videoAt adTime adLength);
     lengthSeconds := Some host; ariaValueNow := Some adTime;
     ariaValueMax := Some adLength; playerArgT := None |}.

(** The video element reports duration 0 and the skip text shows a countdown. *)
Definition skipIn4Page : Page :=
  {| skipButton := None; adContainer := true; bodyHasSkipPhrase := true;
     nonSkippableMarker := false; skipTextElements := ["Skip in 4"%string];
     timeDisplays := [None]; progressBarLabel := None; adContentSignature := "";
     video := Some (videoAt 0 0);
     lengthSeconds := None; ariaValueNow := None; ariaValueMax := None;
     playerArgT := None |}.

Definition freshTracker (now : Z) : Tracker :=
  {| startTime := now; endTime := None; realDuration := None;
     progressUpdates := []; isTracking := true |}.

Definition tracking (now : Z) : State := startAdDurationTracking now initial.

(** Three ads A, B, C within 8 seconds of a 600-second host video that was at
    300 seconds when the run began. *)
Definition threeAds : list (string * Page * Z) :=
  [ ("A"%string, hostPage (videoAt 300 600) 300 600, 1000);
    ("B"%string, adPlayingPage 1 15 600, 5000);
    ("C"%string, adPlayingPage 2 20 600, 9000) ].

End Observer.

(** * The content script's message buffer *)

Module Sender.

Inductive MessageType :=
  | VIDEO_DEBUG_ALL | AD_DETECTED | AD_ENDED
  | OtherType (name : string).

(** A message with what [JSON.stringify] makes of it. *)
Record Message := {
  m_type : MessageType;
  m_json : string
}.

Record MessageBuffer := {
  lastVideoDebugAll : option Message;
  lastAdDetected : option Message;
  lastAdEnded : option Message;
  lastSentTime : Z
}.

Definition messageBuffer0 : MessageBuffer :=
  {| lastVideoDebugAll := None; lastAdDetected := None; lastAdEnded := None;
     lastSentTime := 0 |}.

Definition isMessageSimilar (msg1 : Message) (msg2 : option Message) : bool :=
  match msg2 with
  | Some m => String.eqb (m_json msg1) (m_json m)
  | None => false
  end.

(** The buffer slot the [switch] compares with; none for other types. *)
Definition slot (t : MessageType) (b : MessageBuffer) : option Message :=
  match t with
  | VIDEO_DEBUG_ALL => lastVideoDebugAll b
  | AD_DETECTED => lastAdDetected b
  | AD_ENDED => lastAdEnded b
  | OtherType _ => None
  end.

Definition remember (m : Message) (b : MessageBuffer) : MessageBuffer :=
  match m_type m with
  | VIDEO_DEBUG_ALL =>
      {| lastVideoDebugAll := Some m; lastAdDetected := lastAdDetected b;
         lastAdEnded := lastAdEnded b; lastSentTime := lastSentTime b |}
  | AD_DETECTED =>
      {| lastVideoDebugAll := lastVideoDebugAll b; lastAdDetected := Some m;
         lastAdEnded := lastAdEnded b; lastSentTime := lastSentTime b |}
  | AD_ENDED =>
      {| lastVideoDebugAll := lastVideoDebugAll b; lastAdDetected := lastAdDetected b;
         lastAdEnded := Some m; lastSentTime := lastSentTime b |}
  | OtherType _ => b
  end.

Definition stamp (now : Z) (b : MessageBuffer) : MessageBuffer :=
  {| lastVideoDebugAll := lastVideoDebugAll b; lastAdDetected := lastAdDetected b;
     lastAdEnded := lastAdEnded b; lastSentTime := now |}.

(** How a call ended. *)
Inductive Outcome :=
  | RateLimited        (* returned before the duplicate check *)
  | Duplicate          (* equal to the buffered message of its type *)
  | Failed             (* handed to the runtime, which was missing or threw *)
  | Sent.              (* handed to the runtime, [true] returned *)

(** [sendMessage(messageData)] at time [now]; [runtimeOk] tells whether
    [chrome.runtime.sendMessage] exists and returns without throwing. *)
Definition sendMessage (m : Message) (now : Z) (runtimeOk : bool)
    (b : MessageBuffer) : Outcome * MessageBuffer :=
  if now - lastSentTime b <? 500 then (RateLimited, b)
  else
    let isDuplicate := isMessageSimilar m (slot (m_type m) b) in
    let b1 := if negb isDuplicate then remember m b else b in
    if negb isDuplicate then
      if runtimeOk then (Sent, stamp now b1) else (Failed, b1)
    else (Duplicate, b1).

Definition returned (o : Outcome) : bool :=
  match o with Sent => true | _ => false end.

Record Call := {
  c_message : Message;
  c_now : Z;
  c_runtimeOk : bool
}.

(** A run of calls, with the outcome of each. *)
Fixpoint sendAll (calls : list Call) (b : MessageBuffer) : list (Call * Outcome) :=
  match calls with
  | [] => []
  | c :: rest =>
      let '(o, b1) := sendMessage (c_message c) (c_now c) (c_runtimeOk c) b in
      (c, o) :: sendAll rest b1
  end.

Definition handedOver (co : Call * Outcome) : bool :=
  match snd co with Sent | Failed => true | _ => false end.

Definition wasSent (co : Call * Outcome) : bool := returned (snd co).

(** The messages the runtime was given, in order. *)
Definition attempts (log : list (Call * Outcome)) : list Message :=
  map (fun co => c_message (fst co)) (List.filter handedOver log).

(** The times at which a message was sent. *)
Definition sendTimes (log : list (Call * Outcome)) : list Z :=
  map (fun co => c_now (fst co)) (List.filter wasSent log).

(** The messages that were sent, in order. *)
Definition sentMessages (log : list (Call * Outcome)) : list Message :=
  map (fun co => c_message (fst co)) (List.filter wasSent log).

Definition known (t : MessageType) : bool :=
  match t with OtherType _ => false | _ => true end.

Definition same_type (t u : MessageType) : bool :=
  match t, u with
  | VIDEO_DEBUG_ALL, VIDEO_DEBUG_ALL => true
  | AD_DETECTED, AD_DETECTED => true
  | AD_ENDED, AD_ENDED => true
  | OtherType a, OtherType b => String.eqb a b
  | _, _ => false
  end.

(** The last message of type [t] in a list. *)
Fixpoint lastOfType (t : MessageType) (l : list Message) : option Message :=
  match l with
  | [] => None
  | m :: rest =>
      match lastOfType t rest with
      | Some m' => Some m'
      | None => if same_type (m_type m) t then Some m else None
      end
  end.

(** [m] differs from the last message of its type among [before]. *)
Definition fresh_after (before : list Message) (m : Message) : Prop :=
  known (m_type m) = true ->
  forall m', lastOfType (m_type m) before = Some m' -> m_json m' <> m_json m.

(** No message of [l] repeats the last message of its type before it. *)
Fixpoint no_repeats_from (before l : list Message) : Prop :=
  match l with
  | [] => True
  | m :: rest => fresh_after before m /\ no_repeats_from (before ++ [m]) rest
  end.

Definition no_repeats (l : list Message) : Prop := no_repeats_from [] l.

(** Any two sends are at least 500 ms apart. *)
Definition spaced (times : list Z) : Prop :=
  StronglySorted (fun t1 t2 => 500 <= t2 - t1) times.

Definition adOn : Message :=
  {| m_type := VIDEO_DEBUG_ALL; m_json := "{type:VIDEO_DEBUG_ALL,adActive:true}" |}.

Definition adOff : Message :=
  {| m_type := VIDEO_DEBUG_ALL; m_json := "{type:VIDEO_DEBUG_ALL,adActive:false}" |}.

(** The runtime throws on the second of three calls. *)
Definition flakyCalls : list Call :=
  [ {| c_message := adOn; c_now := 1000; c_runtimeOk := true |};
    {| c_message := adOff; c_now := 2000; c_runtimeOk := false |};
    {| c_message := adOn; c_now := 3000; c_runtimeOk := true |} ].

Definition steadyCalls : list Call :=
  [ {| c_message := adOn; c_now := 1000; c_runtimeOk := true |};
    {| c_message := adOn; c_now := 1200; c_runtimeOk := true |};
    {| c_message := adOn; c_now := 2000; c_runtimeOk := true |};
    {| c_message := adOff; c_now := 3000; c_runtimeOk := true |} ].

End Sender.

(** * The background coordinator *)

Module Coordinator.

(** An identifier field of a message or record. *)
Inductive jsval :=
  | JUndefined
  | JNull
  | JStr (s : string).

#[global] Instance jsval_eq_dec : EqDecision jsval.
Proof. solve_decision. Defined.

Definition truthy (v : jsval) : bool :=
  match v with JStr s => nonempty s | _ => false end.

(** [a || b] *)
Definition js_or (a b : jsval) : jsval := if truthy a then a else b.

(** [a !== b] *)
Definition strict_ne (a b : jsval) : bool := negb (bool_decide (a = b)).

Definition day : Z := 24 * 60 * 60 * 1000.

(** What the listener reads of [message.debugInfo]. *)
Record DebugInfo := {
  di_debug_videoId : jsval;
  di_playerResponseVideoId : jsval
}.

Record DebugAll := {
  msg_debugText : jsval;
  msg_debugInfo : DebugInfo;
  msg_adActive : bool;
  msg_addebug_videoId : jsval;
  msg_debug_videoId : jsval;
  msg_adTypeInfo : option Observer.Descriptor
}.

Inductive Message :=
  | VIDEO_DEBUG_ALL (m : DebugAll)
  | AD_DETECTED (addebug_videoId : jsval)
  | AD_ENDED
  | GET_ADS_LAST_24H
  | GET_VIDEOS_LAST_24H
  | GET_DEBUG_INFO
  | RESET_COUNTERS
  | OtherMessage.

(** A per-tab record; the fields a spread over a missing record leaves out
    are [JUndefined] and [None]. *)
Record TabData := {
  debugText : jsval;
  debugInfo : option DebugInfo;
  adActive : bool;
  addebug_videoId : jsval;
  debug_videoId : jsval;
  adTypeInfo : option Observer.Descriptor;
  lastUpdate : option Z
}.

Record AdEntry := {
  ae_adId : string;
  ae_timestamp : Z;
  ae_adTypeInfo : option Observer.Descriptor
}.

Record VideoEntry := {
  videoId : string;
  ve_timestamp : Z
}.

Record State := {
  debugDataByTab : gmap Z TabData;
  lastCountedVideoIdByTab : gmap Z string;
  lastAdStateByTab : gmap Z bool;
  lastCountedAdIdByTab : gmap Z (string * Z);
  globalVideoProcessing : gset string;
  adTimestamps : list AdEntry;          (* chrome.storage.local *)
  videoTimestamps : list VideoEntry;    (* chrome.storage.local *)
  lastAdDetected : bool
}.

Definition empty : State :=
  {| debugDataByTab := ∅; lastCountedVideoIdByTab := ∅; lastAdStateByTab := ∅;
     lastCountedAdIdByTab := ∅; globalVideoProcessing := ∅;
     adTimestamps := []; videoTimestamps := []; lastAdDetected := false |}.

Inductive Response :=
  | NoResponse
  | Count (count : nat)
  | Success (success : bool)
  | DebugData (d : TabData).

Definition set_debugData (m : gmap Z TabData) (st : State) : State :=
  {| debugDataByTab := m;
     lastCountedVideoIdByTab := lastCountedVideoIdByTab st;
     lastAdStateByTab := lastAdStateByTab st;
     lastCountedAdIdByTab := lastCountedAdIdByTab st;
     globalVideoProcessing := globalVideoProcessing st;
     adTimestamps := adTimestamps st; videoTimestamps := videoTimestamps st;
     lastAdDetected := lastAdDetected st |}.

Definition set_adState (m : gmap Z bool) (flag : bool) (st : State) : State :=
  {| debugDataByTab := debugDataByTab st;
     lastCountedVideoIdByTab := lastCountedVideoIdByTab st;
     lastAdStateByTab := m;
     lastCountedAdIdByTab := lastCountedAdIdByTab st;
     globalVideoProcessing := globalVideoProcessing st;
     adTimestamps := adTimestamps st; videoTimestamps := videoTimestamps st;
     lastAdDetected := flag |}.

Definition set_ads (counted : gmap Z (string * Z)) (stored : list AdEntry)
    (st : State) : State :=
  {| debugDataByTab := debugDataByTab st;
     lastCountedVideoIdByTab := lastCountedVideoIdByTab st;
     lastAdStateByTab := lastAdStateByTab st;
     lastCountedAdIdByTab := counted;
     globalVideoProcessing := globalVideoProcessing st;
     adTimestamps := stored; videoTimestamps := videoTimestamps st;
     lastAdDetected := lastAdDetected st |}.

Definition set_videos (counted : gmap Z string) (processing : gset string)
    (stored : list VideoEntry) (st : State) : State :=
  {| debugDataByTab := debugDataByTab st;
     lastCountedVideoIdByTab := counted;
     lastAdStateByTab := lastAdStateByTab st;
     lastCountedAdIdByTab := lastCountedAdIdByTab st;
     globalVideoProcessing := processing;
     adTimestamps := adTimestamps st; videoTimestamps := stored;
     lastAdDetected := lastAdDetected st |}.

(** A sender's tab id as the listener tests it. *)
Definition tab_of (sender : option Z) : option Z :=
  match sender with
  | Some id => if id =? 0 then None else Some id
  | None => None
  end.

Definition updateBadge (tabId : Z) (hasAd : bool) (st : State) : State :=
  if tabId =? 0 then st
  else set_adState (<[tabId := hasAd]> (lastAdStateByTab st)) (lastAdDetected st) st.

Definition createEmptyTabData (now : Z) : TabData :=
  {| debugText := JStr ""; debugInfo := Some {| di_debug_videoId := JUndefined;
                                                 di_playerResponseVideoId := JUndefined |};
     adActive := false; addebug_videoId := JNull; debug_videoId := JNull;
     adTypeInfo := None; lastUpdate := Some now |}.

Definition updateTabData (tabId : Z) (m : DebugAll) (hasAd : bool) (now : Z)
    (st : State) : State :=
  let vid :=
    js_or (msg_debug_videoId m)
      (js_or (di_debug_videoId (msg_debugInfo m))
         (js_or (di_playerResponseVideoId (msg_debugInfo m)) JNull)) in
  set_debugData
    (<[tabId := {| debugText := msg_debugText m;
                   debugInfo := Some (msg_debugInfo m);
                   adActive := hasAd;
                   addebug_videoId := msg_addebug_videoId m;
                   debug_videoId := vid;
                   adTypeInfo := msg_adTypeInfo m;
                   lastUpdate := Some now |}]> (debugDataByTab st)) st.

(** An entry is kept while it is at most 24 hours old. *)
Definition recent (now ts : Z) : bool := now - ts <=? day.

Definition saveAdTimestamp (adId : string) (info : option Observer.Descriptor)
    (timestamp : Z) (st : State) : State :=
  let timestamps :=
    List.filter (fun item => recent timestamp (ae_timestamp item)) (adTimestamps st) in
  set_ads (lastCountedAdIdByTab st)
    (timestamps ++ [{| ae_adId := adId; ae_timestamp := timestamp; ae_adTypeInfo := info |}])
    st.

(** The test under which [handleAdCounting] counts. *)
Definition shouldCount (last : option (string * Z)) (adId : string) (now : Z) : bool :=
  match last with
  | None => true
  | Some (lastId, lastTime) => negb (String.eqb lastId adId) || (5000 <? now - lastTime)
  end.

(** The ad id [handleAdCounting] counts, if it counts one. *)
Definition countedAd (m : DebugAll) (tabId : Z) (hasAd : bool) (now : Z)
    (st : State) : option string :=
  match msg_addebug_videoId m with
  | JStr adId =>
      if hasAd && nonempty adId && negb (String.eqb adId "empty_video") then
        if shouldCount (lastCountedAdIdByTab st !! tabId) adId now
        then Some adId else None
      else None
  | _ => None
  end.

Definition handleAdCounting (m : DebugAll) (tabId : Z) (hasAd : bool) (now : Z)
    (st : State) : State :=
  match countedAd m tabId hasAd now st with
  | Some adId =>
      saveAdTimestamp adId (msg_adTypeInfo m) now
        (set_ads (<[tabId := (adId, now)]> (lastCountedAdIdByTab st))
           (adTimestamps st) st)
  | None => st
  end.

(** [new Set(items.map(item => item.videoId)).size] *)
Definition uniqueCount (items : list VideoEntry) : nat :=
  size (list_to_set (map videoId items) : gset string).

(** The synchronous part of [handleVideoCounting]: [Some id] when it asks the
    store for the entries on behalf of [id]. *)
Definition handleVideoCounting_start (tabId : Z) (st : State) : State * option string :=
  match debugDataByTab st !! tabId with
  | None => (st, None)
  | Some tabData =>
      match debug_videoId tabData with
      | JStr id =>
          if negb (nonempty id) || (String.length id <? 10)%nat
             || bool_decide (debug_videoId tabData = addebug_videoId tabData)
          then (st, None)
          else if bool_decide (lastCountedVideoIdByTab st !! tabId = Some id)
          then (st, None)
          else if bool_decide (id ∈ globalVideoProcessing st)
          then (set_videos (<[tabId := id]> (lastCountedVideoIdByTab st))
                  (globalVideoProcessing st) (videoTimestamps st) st, None)
          else (set_videos (lastCountedVideoIdByTab st)
                  ({[id]} ∪ globalVideoProcessing st) (videoTimestamps st) st, Some id)
      | _ => (st, None)
      end
  end.

(** The callback of the store's answer, with the write it issues. *)
Definition handleVideoCounting_stored (tabId : Z) (id : string) (now : Z)
    (st : State) : State :=
  let timestamps := videoTimestamps st in
  let existingEntry :=
    List.find (fun item => String.eqb (videoId item) id && recent now (ve_timestamp item))
      timestamps in
  match existingEntry with
  | None =>
      set_videos (<[tabId := id]> (lastCountedVideoIdByTab st))
        (globalVideoProcessing st ∖ {[id]})
        (List.filter (fun item => recent now (ve_timestamp item)) timestamps
           ++ [{| videoId := id; ve_timestamp := now |}]) st
  | Some _ =>
      set_videos (<[tabId := id]> (lastCountedVideoIdByTab st))
        (globalVideoProcessing st ∖ {[id]}) timestamps st
  end.

(** [handleVideoCounting] with its callback run at once. *)
Definition handleVideoCounting (tabId : Z) (now : Z) (st : State) : State :=
  match handleVideoCounting_start tabId st with
  | (st1, Some id) => handleVideoCounting_stored tabId id now st1
  | (st1, None) => st1
  end.

Definition cleanupTabData (tabId : Z) (st : State) : State :=
  let st1 := set_debugData (delete tabId (debugDataByTab st)) st in
  let st2 :=
    set_videos (delete tabId (lastCountedVideoIdByTab st1))
      (globalVideoProcessing st1) (videoTimestamps st1) st1 in
  let st3 :=
    match lastAdStateByTab st2 !! tabId with
    | Some true => set_adState (delete tabId (lastAdStateByTab st2)) (lastAdDetected st2) st2
    | _ => st2
    end in
  let st4 := set_ads (delete tabId (lastCountedAdIdByTab st3)) (adTimestamps st3) st3 in
  updateBadge tabId false st4.

(** The record [GET_DEBUG_INFO] answers with for a tab it has no record of. *)
Definition noTabData : TabData :=
  {| debugText := JStr ""; debugInfo := Some {| di_debug_videoId := JUndefined;
                                                 di_playerResponseVideoId := JUndefined |};
     adActive := false; addebug_videoId := JNull; debug_videoId := JNull;
     adTypeInfo := None; lastUpdate := None |}.

Definition onVideoDebugAll (m : DebugAll) (tabId : Z) (now : Z) (st : State) : State :=
  let id := msg_addebug_videoId m in
  let hasAd := msg_adActive m || truthy id in
  let adStateChanged :=
    match debugDataByTab st !! tabId with
    | None => true
    | Some cur =>
        negb (Bool.eqb hasAd (adActive cur))
        || (hasAd && truthy id && strict_ne id (addebug_videoId cur))
        || (negb hasAd && adActive cur)
    end in
  let st1 :=
    match debugDataByTab st !! tabId with
    | None => set_debugData (<[tabId := createEmptyTabData now]> (debugDataByTab st)) st
    | Some _ => st
    end in
  let shouldUpdateData :=
    match debugDataByTab st1 !! tabId with
    | Some rec =>
        adStateChanged || strict_ne (msg_debugText m) (debugText rec)
        || strict_ne (msg_debug_videoId m) (debug_videoId rec)
    | None => adStateChanged
    end in
  let st2 :=
    if shouldUpdateData then
      let st' := updateTabData tabId m hasAd now st1 in
      if adStateChanged
      then handleAdCounting m tabId hasAd now (updateBadge tabId hasAd st')
      else st'
    else st1 in
  handleVideoCounting tabId now st2.

Definition onAdEnded (sender : option Z) (st : State) : State :=
  let st1 := set_adState (lastAdStateByTab st) false st in
  match tab_of sender with
  | Some tabId =>
      let st2 := updateBadge tabId false st1 in
      let old :=
        match debugDataByTab st2 !! tabId with
        | Some d => d
        | None => {| debugText := JUndefined; debugInfo := None; adActive := false;
                     addebug_videoId := JUndefined; debug_videoId := JUndefined;
                     adTypeInfo := None; lastUpdate := None |}
        end in
      set_debugData
        (<[tabId := {| debugText := debugText old; debugInfo := debugInfo old;
                       adActive := false; addebug_videoId := JNull;
                       debug_videoId := debug_videoId old;
                       adTypeInfo := adTypeInfo old;
                       lastUpdate := lastUpdate old |}]> (debugDataByTab st2)) st2
  | None => st1
  end.

Definition onGetAds (now : Z) (st : State) : Response * State :=
  let last24h := List.filter (fun item => recent now (ae_timestamp item)) (adTimestamps st) in
  (Count (length last24h), set_ads (lastCountedAdIdByTab st) last24h st).

Definition onGetVideos (now : Z) (st : State) : Response * State :=
  let last24h :=
    List.filter (fun item => recent now (ve_timestamp item)) (videoTimestamps st) in
  (Count (uniqueCount last24h),
   set_videos (lastCountedVideoIdByTab st) (globalVideoProcessing st) last24h st).

Definition onGetDebugInfo (sender activeTab : option Z) (st : State) : Response * State :=
  match tab_of sender with
  | Some tabId =>
      (DebugData (default noTabData (debugDataByTab st !! tabId)), st)
  | None =>
      match tab_of activeTab with
      | None => (DebugData noTabData, st)
      | Some tabId =>
          let tabData := default noTabData (debugDataByTab st !! tabId) in
          (DebugData tabData, updateBadge tabId (adActive tabData) st)
      end
  end.

Definition onResetCounters (st : State) : Response * State :=
  (Success true,
   set_videos ∅ ∅ [] (set_ads ∅ [] st)).

(** The [chrome.runtime.onMessage] listener, each storage callback run with
    the message that issues it.  [sender] is [sender.tab?.id], [activeTab] the
    id the tab query answers with. *)
Definition onMessage (message : Message) (sender activeTab : option Z) (now : Z)
    (st : State) : Response * State :=
  match message with
  | VIDEO_DEBUG_ALL m =>
      match tab_of sender with
      | Some tabId => (NoResponse, onVideoDebugAll m tabId now st)
      | None => (NoResponse, st)
      end
  | AD_DETECTED _ =>
      let st1 := set_adState (lastAdStateByTab st) true st in
      match tab_of sender with
      | Some tabId => (NoResponse, updateBadge tabId true st1)
      | None => (NoResponse, st1)
      end
  | AD_ENDED => (NoResponse, onAdEnded sender st)
  | GET_ADS_LAST_24H => onGetAds now st
  | GET_VIDEOS_LAST_24H => onGetVideos now st
  | GET_DEBUG_INFO => onGetDebugInfo sender activeTab st
  | RESET_COUNTERS => onResetCounters st
  | OtherMessage => (NoResponse, st)
  end.

(** A run of messages from one tab, each with its clock reading. *)
Fixpoint handleAll (tabId : Z) (messages : list (Message * Z)) (st : State) : State :=
  match messages with
  | [] => st
  | (m, now) :: rest => handleAll tabId rest (snd (onMessage m (Some tabId) None now st))
  end.

(** A run of activations on one tab, all carrying the message [m]: the clock
    readings at which [handleAdCounting] appended an entry. *)
Fixpoint countedTimes (m : DebugAll) (tabId : Z) (times : list Z) (st : State) : list Z :=
  match times with
  | [] => []
  | now :: rest =>
      let later := countedTimes m tabId rest (handleAdCounting m tabId true now st) in
      match countedAd m tabId true now st with
      | Some _ => now :: later
      | None => later
      end
  end.

(** What happens to the coordinator: a message arrives, a tab closes, or a
    tab starts loading. *)
Inductive Event :=
  | Incoming (message : Message) (sender activeTab : option Z)
  | TabRemoved (tabId : Z)
  | TabLoading (tabId : Z).

Definition step (e : Event) (now : Z) (st : State) : State :=
  match e with
  | Incoming message sender activeTab => snd (onMessage message sender activeTab now st)
  | TabRemoved tabId => cleanupTabData tabId st
  | TabLoading tabId => updateBadge tabId false st
  end.

(** ** Properties of records and events *)

(** The last ad counted for the tab is [adId], counted at most 5 s ago. *)
Definition lastCountedRecently (st : State) (tabId : Z) (adId : string) (now : Z) : Prop :=
  exists t, lastCountedAdIdByTab st !! tabId = Some (adId, t) /\ now - t <= 5000.

(** Consecutive counts are more than 5 s apart. *)
Definition fiveSecondsApart (times : list Z) : Prop :=
  StronglySorted (fun t1 t2 => 5000 < t2 - t1) times.

(** An active record names its ad. *)
Definition names_ad (d : TabData) : Prop :=
  adActive d = true -> truthy (addebug_videoId d) = true.

Definition records_name_ads (st : State) : Prop :=
  forall tabId d, debugDataByTab st !! tabId = Some d -> names_ad d.

(** The invariant as the specification words it: the ad id of an active
    record is non-empty and not the placeholder. *)
Definition names_real_ad (d : TabData) : Prop :=
  adActive d = true ->
  truthy (addebug_videoId d) = true /\ addebug_videoId d <> JStr "empty_video".

(** The observer sets [adActive] to [!!addebug_videoId]. *)
Definition from_observer (e : Event) : Prop :=
  match e with
  | Incoming (VIDEO_DEBUG_ALL m) _ _ =>
      msg_adActive m = true -> truthy (msg_addebug_videoId m) = true
  | _ => True
  end.

Definition countable_ad (adId : string) : Prop :=
  adId <> ""%string /\ adId <> "empty_video"%string.

(** Every per-tab record has the property [P]. *)
Definition every_record (P : TabData -> Prop) (st : State) : Prop :=
  forall tabId d, debugDataByTab st !! tabId = Some d -> P d.

(** No two entries of the video collection have the same id. *)
Definition one_entry_per_video (st : State) : Prop :=
  NoDup (map videoId (videoTimestamps st)).


(** ** Messages of the scenarios *)

Definition adMessage (adId : string) : DebugAll :=
  {| msg_debugText := JStr "debug";
     msg_debugInfo := {| di_debug_videoId := JUndefined;
                         di_playerResponseVideoId := JUndefined |};
     msg_adActive := true;
     msg_addebug_videoId := JStr adId;
     msg_debug_videoId := JStr "dQw4w9WgXcQ";
     msg_adTypeInfo := None |}.

(** Ad A, ad B and ad A again on one tab, a second apart. *)
Definition flicker : list (Message * Z) :=
  [ (VIDEO_DEBUG_ALL (adMessage "adAAAAAAAAA"), 1000);
    (VIDEO_DEBUG_ALL (adMessage "adBBBBBBBBB"), 2000);
    (VIDEO_DEBUG_ALL (adMessage "adAAAAAAAAA"), 3000) ].

Definition stored (st : State) : list (string * Z) :=
  map (fun e => (ae_adId e, ae_timestamp e)) (adTimestamps st).

(** A store with two entries of one video, one of another and a stale one. *)
Definition someVideos : State :=
  set_videos ∅ ∅
    [ {| videoId := "dQw4w9WgXcQ"; ve_timestamp := 1000 |};
      {| videoId := "dQw4w9WgXcQ"; ve_timestamp := 5000 |};
      {| videoId := "9bZkp7q19f0"; ve_timestamp := 7000 |};
      {| videoId := "kJQP7kiw5Fk"; ve_timestamp := -90000000 |} ] empty.

End Coordinator.

(** * Duration tracking and runs of passes *)

Module Tracking.
Import Observer.

(** [stopAdDurationTracking] on a tracker that exists: the value returned and
    the tracker afterwards. *)
Definition stopAdDurationTracking (now : Z) (tr : Tracker) : option Z * Tracker :=
  if negb (isTracking tr) then (None, tr)
  else
    let measured :=
      if negb (startTime tr =? 0) && negb (now =? 0)
      then Some (Math_round (inject_Z (now - startTime tr) / 1000)%Q)
      else realDuration tr in
    (measured,
     {| startTime := startTime tr; endTime := Some now; realDuration := measured;
        progressUpdates := progressUpdates tr; isTracking := false |}).

(** What the progress observer pushes for an element's text: the first number
    in it, with the clock; nothing when the text has no digit. *)
Definition progressInfoOf (text : string) (now : Z) : option ProgressInfo :=
  match match_digits text with
  | Some n => Some {| remainingTime := n; pi_timestamp := now; total := None |}
  | None => None
  end.

(** The push onto [progressUpdates], which keeps the last 10. *)
Definition recordProgress (info : ProgressInfo) (tr : Tracker) : Tracker :=
  let pushed := progressUpdates tr ++ [info] in
  {| startTime := startTime tr; endTime := endTime tr; realDuration := realDuration tr;
     progressUpdates := if (10 <? length pushed)%nat then tail pushed else pushed;
     isTracking := isTracking tr |}.

(** The progress observer seeing the texts of the progress elements. *)
Fixpoint observeProgress (texts : list (string * Z)) (tr : Tracker) : Tracker :=
  match texts with
  | [] => tr
  | (text, now) :: rest =>
      match progressInfoOf text now with
      | Some info => observeProgress rest (recordProgress info tr)
      | None => observeProgress rest tr
      end
  end.

(** The descriptors a run of passes reports, one per observed ad. *)
Fixpoint sampleDescriptors (ads : list (string * Page * Z)) (st : State) : list Descriptor :=
  match ads with
  | [] => []
  | (adId, p, now) :: rest =>
      let '(d, st1) := sampleAd adId p now st in
      d :: sampleDescriptors rest st1
  end.

(** What [\d+] groups can capture: numbers that are not negative. *)
Definition captures_digits (m : option TimeMatch) : Prop :=
  match m with
  | Some (MinSec a b) => 0 <= a /\ 0 <= b
  | Some (Seconds n) => 0 <= n
  | _ => True
  end.

Definition page_digits (p : Page) : Prop :=
  Forall captures_digits (timeDisplays p)
  /\ match progressBarLabel p with
     | Some (a, b) => 0 <= a /\ 0 <= b
     | None => True
     end.

(** A page whose only hint is a time display reading [0:45]. *)
Definition timedPage : Page :=
  {| skipButton := None; adContainer := true; bodyHasSkipPhrase := false;
     nonSkippableMarker := true; skipTextElements := [];
     timeDisplays := [None; Some (MinSec 0 45)];
     progressBarLabel := None; adContentSignature := "";
     video := Some (videoAt 0 0);
     lengthSeconds := None; ariaValueNow := None; ariaValueMax := None;
     playerArgT := None |}.

(** The host video is paused at [t] of [d] seconds. *)
Definition pausedPage (t d : Q) : Page :=
  hostPage {| currentTime := t; duration := Some d; ended := true; paused := true;
              readyState := 4 |} t d.

(** What holds of the globals between two passes. *)
Definition between_passes (st : State) : Prop :=
  isInAdSequence st = false
  /\ (lastAdDebugVideoId st <> None -> adDurationTracker st <> None).

(** The state in which [sampleAd] starts its pass. *)
Definition beforePass (adId : string) (p : Page) (now : Z) (st : State) : State :=
  if negb (bool_decide (lastAdDebugVideoId st = Some adId)) then
    resetAdDataVariables (startAdDurationTracking now (captureVideoTime p st))
  else snd (detectConsecutiveAdChange (adContentSignature p) st).

(** What a descriptor of a run owes to the page of its own pass. *)
Definition own_reading (ad : string * Page * Z) (d : Descriptor) : Prop :=
  consecutiveAdNumber d = 0
  /\ (forall el, video (snd (fst ad)) = Some el ->
        position d
        = positionOf el (fst (readVideoTimes (snd (fst ad)) el))
            (snd (readVideoTimes (snd (fst ad)) el))).

(** The sources [getBestAdDuration] can name. *)
Definition tracker_source (b : BestDuration) : Prop :=
  b = no_duration \/ bd_source b = real_tracking \/ bd_source b = video_element
  \/ bd_source b = progress_total \/ bd_source b = skip_calculation.

(** The locals before the final estimate. *)
Definition beforeEstimation (tr : Tracker) (p : Page) : Locals :=
  let text := readSkipText p in
  useSkipInference text
    (useProgressBar p
       (useDomText p
          (useBestDuration (getBestAdDuration tr (video p))
             {| l_isSkippable := readSkippable p text; l_adDuration := 0;
                l_durationDetected := false; l_durationSource := none |}))).

(** What every stage before the final estimate keeps. *)
Definition measured (l : Locals) : Prop :=
  0 <= l_adDuration l
  /\ l_durationSource l <> estimation
  /\ (l_adDuration l <> 0 -> l_durationSource l <> none)
  /\ (l_durationSource l = skip_inference ->
      l_isSkippable l = true
      /\ (l_adDuration l = 6 \/ l_adDuration l = 15 \/ l_adDuration l = 20)).

(** The bounds the sources of a tracker answer keep. *)
Definition bounded (b : BestDuration) : Prop :=
  0 <= bd_duration b
  /\ (bd_source b = video_element \/ bd_source b = skip_calculation ->
      bd_duration b <= 300)
  /\ (bd_source b = real_tracking -> 0 < bd_duration b).

(** What the progress observer's entries look like: no [total] field. *)
Definition observed (updates : list ProgressInfo) : Prop :=
  (length updates <= 10)%nat /\ Forall (fun u => total u = None) updates.

End Tracking.

(** * The content script's ad watcher *)

Module ContentScript.
Import Coordinator.

(** [getAdDebugVideoId]: the player arguments first, then the player response. *)
Definition getAdDebugVideoId (argsId responseId : jsval) : jsval :=
  if truthy argsId then argsId
  else if truthy responseId then responseId
  else JNull.

Record State := {
  lastAdDebugId : jsval;
  lastAdState : bool;
  stableAdCheckCount : Z
}.

Definition initial : State :=
  {| lastAdDebugId := JNull; lastAdState := false; stableAdCheckCount := 0 |}.

(** What [checkAdStatus] asks [sendMessage] to send. *)
Inductive Notice :=
  | NoticeAdDetected (addebug_videoId : jsval)
  | NoticeAdEnded.

(** [checkAdStatus] when the page gives the ad id [id]. *)
Definition checkAdStatus (id : jsval) (st : State) : State * option Notice :=
  let hasAd := truthy id in
  let adIdChanged := strict_ne id (lastAdDebugId st) in
  let adStateChanged := negb (Bool.eqb hasAd (lastAdState st)) in
  let count := if adStateChanged || adIdChanged then 0 else stableAdCheckCount st + 1 in
  if adStateChanged || adIdChanged then
    if hasAd && strict_ne id (lastAdDebugId st) then
      ({| lastAdDebugId := id; lastAdState := true; stableAdCheckCount := count |},
       Some (NoticeAdDetected id))
    else if negb hasAd && lastAdState st && (1 <=? count) then
      ({| lastAdDebugId := JNull; lastAdState := false; stableAdCheckCount := count |},
       Some NoticeAdEnded)
    else
      ({| lastAdDebugId := lastAdDebugId st; lastAdState := lastAdState st;
          stableAdCheckCount := count |}, None)
  else
    ({| lastAdDebugId := lastAdDebugId st; lastAdState := lastAdState st;
        stableAdCheckCount := count |}, None).

(** The notices of a run of checks, one ad id read per check. *)
Fixpoint notices (ids : list jsval) (st : State) : list Notice :=
  match ids with
  | [] => []
  | id :: rest =>
      let '(st1, n) := checkAdStatus id st in
      match n with
      | Some x => x :: notices rest st1
      | None => notices rest st1
      end
  end.

(** Each notice announces an ad other than the one announced before it. *)
Fixpoint fresh_ads (previous : jsval) (l : list Notice) : Prop :=
  match l with
  | [] => True
  | NoticeAdDetected id :: rest =>
      truthy id = true /\ id <> previous /\ fresh_ads id rest
  | NoticeAdEnded :: _ => False
  end.

(** What the page posts with [YTD_DEBUG_ALL]. *)
Record PageData := {
  pd_debugText : jsval;
  pd_debugInfo : DebugInfo;
  pd_addebug_videoId : jsval;
  pd_debug_videoId : jsval;
  pd_adTypeInfo : option Observer.Descriptor
}.

(** The [VIDEO_DEBUG_ALL] message the listener builds from it. *)
Definition forwardDebugAll (d : PageData) : DebugAll :=
  {| msg_debugText := pd_debugText d;
     msg_debugInfo := pd_debugInfo d;
     msg_adActive := truthy (pd_addebug_videoId d);
     msg_addebug_videoId := pd_addebug_videoId d;
     msg_debug_videoId := pd_debug_videoId d;
     msg_adTypeInfo := pd_adTypeInfo d |}.

(** A record says it shows an ad exactly when it has an ad id. *)
Definition active_iff_ad (d : TabData) : Prop :=
  adActive d = truthy (addebug_videoId d).

Definition records_active_iff_ad (st : Coordinator.State) : Prop :=
  forall tabId d, debugDataByTab st !! tabId = Some d -> active_iff_ad d.

(** The events the content script of this repository causes. *)
Definition forwarded (e : Event) : Prop :=
  match e with
  | Incoming (VIDEO_DEBUG_ALL m) _ _ => exists d, m = forwardDebugAll d
  | _ => True
  end.

Definition pageWithAd (adId : string) : PageData :=
  {| pd_debugText := JStr "debug";
     pd_debugInfo := {| di_debug_videoId := JUndefined;
                        di_playerResponseVideoId := JUndefined |};
     pd_addebug_videoId := JStr adId;
     pd_debug_videoId := JStr "dQw4w9WgXcQ";
     pd_adTypeInfo := None |}.

End ContentScript.

(** * The coordinator's memory sweep *)

Module Sweep.
Import Coordinator.

Definition maxEntries : nat := 50.
Definition maxProcessing : nat := 25.
Definition maxAge : Z := 15 * 60 * 1000.

(** [data.lastUpdate || fallback] *)
Definition lastUpdate_or (fallback : Z) (d : TabData) : Z :=
  match lastUpdate d with
  | Some t => if t =? 0 then fallback else t
  | None => fallback
  end.

Definition byTabId (a b : Z * TabData) : Prop := a.1 <= b.1.

#[global] Instance byTabId_dec a b : Decision (byTabId a b).
Proof. unfold byTabId. apply _. Defined.

(** [Object.entries(debugDataByTab)]: the records by ascending tab id. *)
Definition entries (m : gmap Z TabData) : list (Z * TabData) :=
  merge_sort byTabId (map_to_list m).

(** The place the stable sort by descending [lastUpdate] gives an entry that
    comes after the entries already placed. *)
Fixpoint insertRecent (now : Z) (x : Z * TabData) (l : list (Z * TabData))
    : list (Z * TabData) :=
  match l with
  | [] => [x]
  | y :: rest =>
      if lastUpdate_or now y.2 <? lastUpdate_or now x.2 then x :: l
      else y :: insertRecent now x rest
  end.

(** [.sort((a, b) => b.lastUpdate - a.lastUpdate)], entries without a
    [lastUpdate] counting as updated [now]. *)
Definition mostRecentFirst (now : Z) (l : list (Z * TabData)) : list (Z * TabData) :=
  fold_left (fun sorted x => insertRecent now x sorted) l [].

(** The cap on the number of records. *)
Definition capRecords (now : Z) (m : gmap Z TabData) : gmap Z TabData :=
  if (maxEntries <? length (entries m))%nat
  then list_to_map (take maxEntries (mostRecentFirst now (entries m)))
  else m.

(** [now - (debugDataByTab[tabId]?.lastUpdate || 0) > maxAge] *)
Definition stale (now : Z) (records : gmap Z TabData) (tabId : Z) : bool :=
  maxAge <? now - match records !! tabId with
                  | Some d => lastUpdate_or 0 d
                  | None => 0
                  end.

(** [MEMORY_MONITOR.forceCleanup]: every map in memory is emptied. *)
Definition forceCleanup (st : State) : State :=
  {| debugDataByTab := ∅; lastCountedVideoIdByTab := ∅; lastAdStateByTab := ∅;
     lastCountedAdIdByTab := ∅; globalVideoProcessing := ∅;
     adTimestamps := adTimestamps st; videoTimestamps := videoTimestamps st;
     lastAdDetected := lastAdDetected st |}.

(** [cleanupMemory] at time [now]; [memoryPressure] is what
    [checkMemoryUsage] finds. *)
Definition cleanupMemory (memoryPressure : bool) (now : Z) (st : State) : State :=
  if memoryPressure then forceCleanup st
  else
    let records := capRecords now (debugDataByTab st) in
    let processing :=
      if (maxProcessing <? size (globalVideoProcessing st))%nat
      then ∅ else globalVideoProcessing st in
    let videoMarks :=
      filter (fun kv => stale now records kv.1 = false) (lastCountedVideoIdByTab st) in
    let adMarks :=
      filter (fun kv => ~ (is_Some (lastCountedVideoIdByTab st !! kv.1)
                           /\ stale now records kv.1 = true))
        (lastCountedAdIdByTab st) in
    {| debugDataByTab := filter (fun kv => stale now records kv.1 = false) records;
       lastCountedVideoIdByTab := videoMarks;
       lastAdStateByTab := lastAdStateByTab st;
       lastCountedAdIdByTab := adMarks;
       globalVideoProcessing := processing;
       adTimestamps := adTimestamps st; videoTimestamps := videoTimestamps st;
       lastAdDetected := lastAdDetected st |}.

(** Entries by descending [lastUpdate]. *)
Definition recentFirst (now : Z) (a b : Z * TabData) : Prop :=
  lastUpdate_or now b.2 <= lastUpdate_or now a.2.

(** A record last updated at [t]. *)
Definition recordAt (t : Z) : TabData :=
  {| debugText := JStr ""; debugInfo := None; adActive := false;
     addebug_videoId := JNull; debug_videoId := JNull; adTypeInfo := None;
     lastUpdate := Some t |}.

(** The records of 51 tabs, tab [i] last updated at [1000 * i]. *)
Definition manyTabs : gmap Z TabData :=
  list_to_map (map (fun i => (i, recordAt (1000 * i))) (seqZ 1 51)).

(** A tab with a fresh record and both marks, and a tab that left an ad mark
    and no record. *)
Definition twoTabs : State :=
  set_ads {[ 7 := ("adAAAAAAAAA"%string, 5000000); 8 := ("adBBBBBBBBB"%string, 1000) ]} []
    (set_videos {[ 7 := "dQw4w9WgXcQ"%string ]} ∅ []
       (set_debugData {[ 7 := recordAt 5000000 ]} empty)).

End Sweep.

(** * Facts about the detection pass *)

Module ObserverFacts.
Import Observer.

Lemma adTypeOf_specType skippableNow dur container :
  adTypeOf skippableNow dur container = specType skippableNow dur container.
Proof.
  unfold adTypeOf, specType.
  destruct skippableNow; [reflexivity|].
  destruct (Z.ltb_spec 0 dur); destruct (decide (dur > 0)); try lia; [|reflexivity].
  destruct (Z.leb_spec dur 6); destruct (decide (dur <= 6)); try lia; [reflexivity|].
  destruct (Z.leb_spec dur 15); destruct (decide (dur <= 15)); try lia; [reflexivity|].
  destruct (Z.leb_spec dur 30); destruct (decide (dur <= 30)); try lia; reflexivity.
Qed.

Lemma resetAdDataVariables_tracker st :
  adDurationTracker (resetAdDataVariables st) = adDurationTracker st.
Proof. reflexivity. Qed.

Lemma startAdSequence_tracker st :
  adDurationTracker (startAdSequence st) = adDurationTracker st.
Proof. unfold startAdSequence. destruct (isInAdSequence st); reflexivity. Qed.

(** C3. In every descriptor a detection pass returns, [type] is the function
    of [isSkippable] and [duration] that the specification gives: skippable
    first, then the duration buckets 6, 15, 30, then [non_skippable] or
    [unknown] by whether the pass had an ad container. *)
Theorem type_is_function_of_skippable_and_duration (p : Page) (now : Z) (st : State) :
  let d := fst (detectAdTypeCommon p now st) in
  type d = specType (isSkippable d) (adDuration d) (containerSeen p st).
Proof.
  unfold detectAdTypeCommon, containerSeen.
  destruct (adDurationTracker (startAdSequence st)) as [tr|]; [|reflexivity].
  destruct (detectAdPosition p now (startAdSequence st)) as [pos st1].
  cbn. apply adTypeOf_specType.
Qed.

(** ** The skip-countdown inference *)

Lemma scanTimeDisplays_no_match found l :
  Forall (fun m => m = None) found -> scanTimeDisplays found l = l.
Proof.
  induction 1 as [|m found Hm _ IH]; [reflexivity|].
  cbn. subst m. rewrite IH. destruct (negb (l_durationDetected l)); reflexivity.
Qed.

(** C4, as the code has it. When [getBestAdDuration] finds no duration, no
    time display and no progress label matches, and the skip text reads
    "Skip in 4", the pass returns duration 6 from the skip inference and
    marks the ad skippable; the type is then [skippable], as the type rule
    puts skippable ads first. *)
Theorem skip_countdown_gives_skippable (p : Page) (now : Z) (st : State) (tr : Tracker) :
  adDurationTracker st = Some tr ->
  bd_duration (getBestAdDuration tr (video p)) <= 0 ->
  Forall (fun m => m = None) (timeDisplays p) ->
  progressBarLabel p = None ->
  readSkipText p = "Skip in 4"%string ->
  let d := fst (detectAdTypeCommon p now st) in
  type d = skippable /\ isSkippable d = true /\ adDuration d = 6
  /\ durationSource d = skip_inference /\ durationDetected d = true.
Proof.
  intros Htr Hbest Htime Hbar Htext.
  unfold detectAdTypeCommon.
  rewrite startAdSequence_tracker, Htr.
  destruct (detectAdPosition p now (startAdSequence st)) as [pos st1].
  cbn [fst type isSkippable adDuration durationSource durationDetected].
  assert (El : estimateDuration tr p = inferred 6).
  { unfold estimateDuration. rewrite Htext.
    unfold useBestDuration.
    destruct (Z.ltb_spec 0 (bd_duration (getBestAdDuration tr (video p)))); [lia|].
    unfold useDomText. cbn [l_adDuration]. rewrite Z.eqb_refl.
    rewrite scanTimeDisplays_no_match by assumption.
    unfold useProgressBar. cbn [l_adDuration]. rewrite Z.eqb_refl, Hbar.
    reflexivity. }
  rewrite El. cbn. repeat split.
Qed.

Lemma skip_countdown_gives_skippable_witness :
  let d := fst (detectAdTypeCommon skipIn4Page 1000 (tracking 0)) in
  type d = skippable /\ isSkippable d = true /\ adDuration d = 6
  /\ durationSource d = skip_inference /\ durationDetected d = true.
Proof.
  apply (skip_countdown_gives_skippable skipIn4Page 1000 (tracking 0) (freshTracker 0)).
  - reflexivity.
  - vm_compute. discriminate.
  - repeat constructor.
  - reflexivity.
  - reflexivity.
Defined.

(** The scenario of C4 at a concrete page: duration 6, source skip inference
    and skippable as claimed, but the type is [skippable], not [bumper]. *)
Lemma skip_in_4_is_not_a_bumper :
  let d := fst (detectAdTypeCommon skipIn4Page 1000 (tracking 0)) in
  realDuration (freshTracker 0) = None
  /\ option_map duration (video skipIn4Page) = Some (Some 0%Q)
  /\ skipText d = "Skip in 4"%string
  /\ adDuration d = 6 /\ durationSource d = skip_inference /\ isSkippable d = true
  /\ type d = skippable /\ type d <> bumper.
Proof. vm_compute. repeat split; discriminate. Qed.

(** ** The position step *)

Lemma positionOf_known el t d : known_position (positionOf el t d).
Proof.
  unfold positionOf, known_position.
  repeat match goal with
         | |- context [if ?c then _ else _] => destruct c
         end; auto.
Qed.

Lemma detectAdPosition_known p now st el :
  video p = Some el -> known_position (fst (detectAdPosition p now st)).
Proof.
  intros Hv. unfold detectAdPosition. rewrite Hv.
  destruct (readVideoTimes p el) as [t d].
  match goal with
  | |- context [if ?c then (_, ?s) else _] => destruct c
  end; cbn [fst]; apply positionOf_known.
Qed.

Lemma Qltb_true x y : (x < y)%Q -> Qltb x y = true.
Proof.
  intros H. unfold Qltb. destruct (Qle_bool y x) eqn:E; [|reflexivity].
  apply Qle_bool_iff in E. exfalso. exact (Qlt_not_le _ _ H E).
Qed.

Lemma Qltb_false x y : (y <= x)%Q -> Qltb x y = false.
Proof.
  intros H. unfold Qltb. apply Qle_bool_iff in H. rewrite H. reflexivity.
Qed.

Lemma detectarPosicionAnuncio_short el st t d :
  (d < 30)%Q -> detectarPosicionAnuncio (Some el) st t d = unknown.
Proof.
  intros H. unfold detectarPosicionAnuncio.
  rewrite (Qltb_true _ _ H), orb_true_r. reflexivity.
Qed.

Lemma detectarPosicionAnuncio_long el st t d :
  (30 <= d)%Q -> known_position (detectarPosicionAnuncio (Some el) st t d).
Proof.
  intros H. unfold detectarPosicionAnuncio.
  rewrite (Qltb_false _ _ H).
  destruct (Qeq_bool d 0) eqn:E.
  - apply Qeq_bool_iff in E. rewrite E in H. exfalso. revert H. apply Qlt_not_le. reflexivity.
  - cbn [orb]. unfold known_position.
    repeat match goal with
           | |- context [if ?c then _ else _] => destruct c
           end; auto.
Qed.

(** C1, as the code has it. With a located video element the position step
    of the detection pass always answers pre-roll, mid-roll or post-roll,
    whatever the reference duration; the 30-second rule is that of the
    separate classifier [detectarPosicionAnuncio], which answers [unknown]
    below 30 seconds and one of the three positions from 30 seconds on. *)
Theorem position_classification_with_video (p : Page) (now : Z) (st : State)
    (el : VideoElement) (t d : Q) :
  video p = Some el ->
  known_position (fst (detectAdPosition p now st))
  /\ ((d < 30)%Q -> detectarPosicionAnuncio (Some el) st t d = unknown)
  /\ ((30 <= d)%Q -> known_position (detectarPosicionAnuncio (Some el) st t d)).
Proof.
  intros Hv. split; [|split].
  - eapply detectAdPosition_known; eassumption.
  - apply detectarPosicionAnuncio_short.
  - apply detectarPosicionAnuncio_long.
Qed.

Lemma position_classification_with_video_witness :
  known_position
    (fst (detectAdPosition (hostPage (videoAt 5 20) 5 20) 0 (tracking 0)))
  /\ ((20 < 30)%Q ->
      detectarPosicionAnuncio (Some (videoAt 5 20)) (tracking 0) 5 20 = unknown)
  /\ ((30 <= 20)%Q ->
      known_position (detectarPosicionAnuncio (Some (videoAt 5 20)) (tracking 0) 5 20)).
Proof.
  apply (position_classification_with_video
           (hostPage (videoAt 5 20) 5 20) 0 (tracking 0) (videoAt 5 20) 5 20).
  reflexivity.
Defined.

(** C1 fails as stated: on a 20-second host video with the video element
    located, the detection pass answers [pre_roll], not [unknown]. *)
Lemma short_host_video_gets_a_position :
  let p := hostPage (videoAt 5 20) 5 20 in
  let d := fst (detectAdTypeCommon p 0 (tracking 0)) in
  video p = Some (videoAt 5 20)
  /\ snd (readVideoTimes p (videoAt 5 20)) = 20%Q
  /\ (20 < 30)%Q
  /\ position d = pre_roll /\ position d <> unknown.
Proof. vm_compute. repeat split; discriminate. Qed.

(** ** The ad-sequence context *)

(** [resetAdDataVariables] clears the sequence flag, so [startAdSequence],
    which calls it on both branches, never leaves the flag set. *)
Lemma startAdSequence_not_in_sequence st :
  isInAdSequence (startAdSequence st) = false.
Proof. unfold startAdSequence. destruct (isInAdSequence st); reflexivity. Qed.

Lemma startAdSequence_count st :
  isInAdSequence st = false -> consecutiveAdCount (startAdSequence st) = 0.
Proof. intros H. unfold startAdSequence. rewrite H. reflexivity. Qed.

Lemma updateVideoContext_sequence v now t d st :
  isInAdSequence (updateVideoContext v now t d st) = isInAdSequence st
  /\ consecutiveAdCount (updateVideoContext v now t d st) = consecutiveAdCount st.
Proof.
  unfold updateVideoContext.
  destruct v as [el|]; cbn;
    repeat match goal with
           | |- context [if ?c then _ else _] => destruct c; cbn
           end; auto.
Qed.

Lemma detectAdPosition_sequence p now st :
  isInAdSequence (snd (detectAdPosition p now st)) = isInAdSequence st
  /\ consecutiveAdCount (snd (detectAdPosition p now st)) = consecutiveAdCount st.
Proof.
  unfold detectAdPosition.
  destruct (video p) as [el|]; [|auto].
  destruct (readVideoTimes p el) as [t d].
  destruct (Qgtb t 0 && Qgtb d 0);
    match goal with
    | |- context [if ?c then _ else _] => destruct c
    end; cbn [snd]; auto using updateVideoContext_sequence.
Qed.

(** Outside a sequence the position step classifies what this pass read off
    the page; the stored context is not consulted. *)
Lemma detectAdPosition_own_observation p now st el :
  video p = Some el ->
  consecutiveAdCount st <= 1 ->
  fst (detectAdPosition p now st)
  = positionOf el (fst (readVideoTimes p el)) (snd (readVideoTimes p el)).
Proof.
  intros Hv Hc. unfold detectAdPosition. rewrite Hv.
  destruct (readVideoTimes p el) as [t d]. cbn [fst snd].
  set (st1 := if Qgtb t 0 && Qgtb d 0 then _ else st).
  assert (Hc1 : consecutiveAdCount st1 = consecutiveAdCount st).
  { subst st1. destruct (Qgtb t 0 && Qgtb d 0); [|reflexivity].
    apply updateVideoContext_sequence. }
  destruct (Z.ltb_spec 1 (consecutiveAdCount st1)); [lia|]. reflexivity.
Qed.

Lemma detectAdTypeCommon_not_in_sequence p now st :
  isInAdSequence (snd (detectAdTypeCommon p now st)) = false.
Proof.
  unfold detectAdTypeCommon.
  destruct (adDurationTracker (startAdSequence st)).
  - pose proof (detectAdPosition_sequence p now (startAdSequence st)) as [H _].
    destruct (detectAdPosition p now (startAdSequence st)) as [pos st1].
    cbn [snd] in *. rewrite H. apply startAdSequence_not_in_sequence.
  - apply startAdSequence_not_in_sequence.
Qed.

(** Every pass that starts outside a sequence, as every pass does, reports
    the position of its own observation. *)
Lemma detectAdTypeCommon_own_observation p now st el tr :
  video p = Some el ->
  adDurationTracker st = Some tr ->
  isInAdSequence st = false ->
  position (fst (detectAdTypeCommon p now st))
  = positionOf el (fst (readVideoTimes p el)) (snd (readVideoTimes p el)).
Proof.
  intros Hv Htr Hseq. unfold detectAdTypeCommon.
  rewrite startAdSequence_tracker, Htr.
  pose proof (detectAdPosition_own_observation p now (startAdSequence st) el Hv) as H.
  rewrite (startAdSequence_count st Hseq) in H. specialize (H ltac:(lia)).
  destruct (detectAdPosition p now (startAdSequence st)) as [pos st1].
  exact H.
Qed.

(** C2 on the code. Three consecutive ads on a 600-second host video that
    was at 300 seconds when the run began: the claim has all three classified
    mid-roll from the shared reference time, but the second and third pass
    classify their own observation (1 and 2 seconds on the progress bar) and
    report pre-roll. *)
Theorem consecutive_ads_classified_by_own_observation :
  samplePositions threeAds initial = [mid_roll; pre_roll; pre_roll]
  /\ samplePositions threeAds initial <> [mid_roll; mid_roll; mid_roll].
Proof. split; [vm_compute; reflexivity | vm_compute; discriminate]. Qed.

End ObserverFacts.

(** * Facts about the message buffer *)

Module SenderFacts.
Import Sender.

Lemma same_type_refl t : same_type t t = true.
Proof. destruct t; cbn; auto using String.eqb_refl. Qed.

Lemma lastOfType_snoc t before m :
  lastOfType t (before ++ [m])
  = if same_type (m_type m) t then Some m else lastOfType t before.
Proof.
  induction before as [|x before IH]; cbn.
  - reflexivity.
  - rewrite IH. destruct (same_type (m_type m) t); [reflexivity|].
    destruct (lastOfType t before); reflexivity.
Qed.

Lemma slot_remember_same m b :
  known (m_type m) = true -> slot (m_type m) (remember m b) = Some m.
Proof. unfold remember. destruct (m_type m) eqn:E; cbn; congruence. Qed.

Lemma slot_remember_other t m b :
  same_type (m_type m) t = false -> slot t (remember m b) = slot t b.
Proof. unfold remember. destruct (m_type m), t; cbn; congruence. Qed.

Lemma slot_stamp t now b : slot t (stamp now b) = slot t b.
Proof. destruct t; reflexivity. Qed.

Lemma lastSentTime_remember m b : lastSentTime (remember m b) = lastSentTime b.
Proof. unfold remember. destruct (m_type m); reflexivity. Qed.

(** The buffer holds, for each of its types, the last message handed over. *)
Definition tracks (before : list Message) (b : MessageBuffer) : Prop :=
  forall t m', known t = true -> lastOfType t before = Some m' -> slot t b = Some m'.

Lemma tracks_remember before m b :
  tracks before b -> tracks (before ++ [m]) (remember m b).
Proof.
  intros H t m' Ht. rewrite lastOfType_snoc.
  destruct (same_type (m_type m) t) eqn:E.
  - intros [= <-]. destruct (m_type m) eqn:Em, t; cbn in E; try discriminate;
      unfold remember; rewrite Em; reflexivity.
  - intros Hl. rewrite slot_remember_other by assumption. auto.
Qed.

Lemma tracks_stamp before now b : tracks before b -> tracks before (stamp now b).
Proof. intros H t m' Ht Hl. rewrite slot_stamp. auto. Qed.

Lemma not_similar_fresh before m b :
  tracks before b ->
  isMessageSimilar m (slot (m_type m) b) = false ->
  fresh_after before m.
Proof.
  intros Htr Hsim Hk m' Hl. rewrite (Htr _ _ Hk Hl) in Hsim. cbn in Hsim.
  apply String.eqb_neq in Hsim. congruence.
Qed.

Lemma attempts_no_repeats calls : forall before b,
  tracks before b -> no_repeats_from before (attempts (sendAll calls b)).
Proof.
  induction calls as [|c calls IH]; intros before b Htr; [exact I|].
  cbn [sendAll]. unfold sendMessage.
  destruct (c_now c - lastSentTime b <? 500); [apply IH, Htr|].
  destruct (isMessageSimilar (c_message c) (slot (m_type (c_message c)) b)) eqn:Hsim;
    cbn [negb]; [apply IH, Htr|].
  destruct (c_runtimeOk c); unfold attempts; cbn; fold (attempts (sendAll calls
    (stamp (c_now c) (remember (c_message c) b))));
    fold (attempts (sendAll calls (remember (c_message c) b))).
  - split; [eapply not_similar_fresh; eassumption|].
    apply IH, tracks_stamp, tracks_remember, Htr.
  - split; [eapply not_similar_fresh; eassumption|].
    apply IH, tracks_remember, Htr.
Qed.

Lemma sendTimes_after calls : forall b,
  Forall (fun t => 500 <= t - lastSentTime b) (sendTimes (sendAll calls b))
  /\ spaced (sendTimes (sendAll calls b)).
Proof.
  induction calls as [|c calls IH]; intros b; [split; constructor|].
  cbn [sendAll]. unfold sendMessage.
  destruct (Z.ltb_spec (c_now c - lastSentTime b) 500); [apply IH|].
  destruct (isMessageSimilar (c_message c) (slot (m_type (c_message c)) b));
    cbn [negb]; [apply IH|].
  destruct (c_runtimeOk c).
  - destruct (IH (stamp (c_now c) (remember (c_message c) b))) as [Hall Hs].
    unfold sendTimes in *. cbn in *. split.
    + constructor; [assumption|].
      eapply Forall_impl; [exact Hall|]. cbn. intros t Ht. lia.
    + constructor; assumption.
  - destruct (IH (remember (c_message c) b)) as [Hall Hs].
    rewrite lastSentTime_remember in Hall. unfold sendTimes in *. cbn in *.
    split; assumption.
Qed.

Lemma attempts_all_sent calls : forall b,
  Forall (fun c => c_runtimeOk c = true) calls ->
  attempts (sendAll calls b) = sentMessages (sendAll calls b).
Proof.
  induction calls as [|c calls IH]; intros b Hok; [reflexivity|].
  inversion Hok as [|? ? Hc Hrest]; subst.
  cbn [sendAll]. unfold sendMessage. rewrite Hc.
  destruct (c_now c - lastSentTime b <? 500); [apply IH, Hrest|].
  destruct (isMessageSimilar (c_message c) (slot (m_type (c_message c)) b));
    cbn [negb]; [apply IH, Hrest|].
  unfold attempts, sentMessages in *. cbn. f_equal. apply IH, Hrest.
Qed.

(** C8, as the code has it. In every run of calls no two messages are sent
    less than 500 ms apart, and no message of a buffered type is handed to
    the runtime when it equals the last message of its type handed over;
    when no runtime call fails, that is the last message sent. *)
Theorem sendMessage_dedup_and_rate_limit (calls : list Call) :
  let log := sendAll calls messageBuffer0 in
  spaced (sendTimes log)
  /\ no_repeats (attempts log)
  /\ (Forall (fun c => c_runtimeOk c = true) calls -> no_repeats (sentMessages log)).
Proof.
  cbn zeta. split; [apply sendTimes_after|]. split.
  - apply attempts_no_repeats. intros t m' _ H. discriminate.
  - intros Hok. rewrite <- attempts_all_sent by assumption.
    apply attempts_no_repeats. intros t m' _ H. discriminate.
Qed.

Lemma sendMessage_dedup_and_rate_limit_witness :
  spaced (sendTimes (sendAll steadyCalls messageBuffer0))
  /\ no_repeats (attempts (sendAll steadyCalls messageBuffer0))
  /\ no_repeats (sentMessages (sendAll steadyCalls messageBuffer0)).
Proof.
  destruct (sendMessage_dedup_and_rate_limit steadyCalls) as (H1 & H2 & H3).
  split; [exact H1|]. split; [exact H2|].
  apply H3. repeat constructor.
Defined.

(** C8 fails as stated: after a call on which the runtime threw, the message
    sent before it is sent again, identical to the last message sent. *)
Lemma resent_after_failed_call :
  let log := sendAll flakyCalls messageBuffer0 in
  map snd log = [Sent; Failed; Sent]
  /\ sentMessages log = [adOn; adOn]
  /\ ~ no_repeats (sentMessages log).
Proof.
  cbn zeta. split; [reflexivity|]. split; [reflexivity|].
  intros H. cbv in H. destruct H as (_ & H & _).
  exact (H eq_refl _ eq_refl eq_refl).
Qed.

End SenderFacts.

(** * Facts about the coordinator *)

Module CoordinatorFacts.
Import Coordinator.

(** ** The 24-hour queries *)

Lemma recent_spec now ts : recent now ts = true <-> now - ts <= day.
Proof. unfold recent. apply Z.leb_le. Qed.

(** C9. After [RESET_COUNTERS] has answered [{success: true}], the next
    [GET_ADS_LAST_24H] and the next [GET_VIDEOS_LAST_24H] both answer
    [{count: 0}], whatever the two collections held before and in either
    order of the two queries. *)
Theorem reset_then_counts_are_zero (st : State) (sender activeTab : option Z)
    (now0 now1 now2 : Z) :
  let reset := onMessage RESET_COUNTERS sender activeTab now0 st in
  let ads := onMessage GET_ADS_LAST_24H sender activeTab now1 (snd reset) in
  let videos := onMessage GET_VIDEOS_LAST_24H sender activeTab now1 (snd reset) in
  fst reset = Success true
  /\ fst ads = Count 0
  /\ fst videos = Count 0
  /\ fst (onMessage GET_VIDEOS_LAST_24H sender activeTab now2 (snd ads)) = Count 0
  /\ fst (onMessage GET_ADS_LAST_24H sender activeTab now2 (snd videos)) = Count 0.
Proof. cbn. repeat split. Qed.

Lemma elem_of_recent_videos now (l : list VideoEntry) id :
  id ∈ map videoId (List.filter (fun item => recent now (ve_timestamp item)) l)
  <-> exists e, e ∈ l /\ videoId e = id /\ now - ve_timestamp e <= day.
Proof.
  rewrite list_elem_of_In, in_map_iff. split.
  - intros (e & He & Hin). apply filter_In in Hin as [Hin Hr].
    exists e. rewrite list_elem_of_In. apply recent_spec in Hr. auto.
  - intros (e & Hin & He & Hr). exists e. split; [assumption|].
    apply filter_In. rewrite <- list_elem_of_In. apply recent_spec in Hr. auto.
Qed.

(** C6. [GET_VIDEOS_LAST_24H] answers with the number of elements of the set
    of video ids that have an entry at most 24 hours old; how many entries an
    id has does not enter. *)
Theorem videos_count_is_distinct_recent_ids (st : State) (sender activeTab : option Z)
    (now : Z) (ids : gset string) :
  (forall id, id ∈ ids <->
     exists e, e ∈ videoTimestamps st /\ videoId e = id /\ now - ve_timestamp e <= day) ->
  fst (onMessage GET_VIDEOS_LAST_24H sender activeTab now st) = Count (size ids).
Proof.
  intros Hids. cbn. unfold uniqueCount. f_equal. f_equal.
  apply set_eq. intros id.
  rewrite elem_of_list_to_set, elem_of_recent_videos. symmetry. apply Hids.
Qed.

Lemma videos_count_is_distinct_recent_ids_witness :
  fst (onMessage GET_VIDEOS_LAST_24H None None 10000 someVideos)
  = Count (size ({[ "dQw4w9WgXcQ"%string; "9bZkp7q19f0"%string ]} : gset string)).
Proof.
  apply (videos_count_is_distinct_recent_ids someVideos None None 10000).
  intros id. rewrite <- elem_of_recent_videos.
  change (map videoId _) with ["dQw4w9WgXcQ"%string; "dQw4w9WgXcQ"%string; "9bZkp7q19f0"%string].
  rewrite !elem_of_cons, elem_of_nil, elem_of_union, !elem_of_singleton. tauto.
Defined.

(** ** Video counting *)

Lemma handleVideoCounting_start_long tabId st st1 id :
  handleVideoCounting_start tabId st = (st1, Some id) ->
  (10 <= String.length id)%nat /\ videoTimestamps st1 = videoTimestamps st.
Proof.
  unfold handleVideoCounting_start.
  destruct (debugDataByTab st !! tabId) as [tabData|]; [|discriminate].
  destruct (debug_videoId tabData) as [| |s]; try discriminate.
  destruct (Nat.ltb_spec (String.length s) 10).
  - rewrite orb_true_r. discriminate.
  - repeat match goal with
           | |- context [if ?c then _ else _] => destruct c
           end; try discriminate.
    intros [= <- <-]. split; [lia|reflexivity].
Qed.

Lemma handleVideoCounting_start_none tabId st st1 :
  handleVideoCounting_start tabId st = (st1, None) ->
  videoTimestamps st1 = videoTimestamps st.
Proof.
  unfold handleVideoCounting_start.
  repeat match goal with
         | |- context [match ?c with _ => _ end] => destruct c
         end; intros [= <-]; reflexivity.
Qed.

Lemma handleVideoCounting_stored_entries tabId id now st entry :
  entry ∈ videoTimestamps (handleVideoCounting_stored tabId id now st) ->
  entry ∈ videoTimestamps st \/ videoId entry = id.
Proof.
  unfold handleVideoCounting_stored.
  destruct (find _ _); cbn; [auto|].
  rewrite elem_of_app, list_elem_of_In, filter_In, <- list_elem_of_In.
  rewrite list_elem_of_singleton.
  intros [[H _] | H]; [auto | right; rewrite H; reflexivity].
Qed.

(** C10. Video counting asks the store only on behalf of an id of at least
    10 characters, and every entry it leaves in the video collection was
    there before or has such an id. *)
Theorem counted_video_ids_are_long (tabId now : Z) (st : State) :
  (forall st1 id, handleVideoCounting_start tabId st = (st1, Some id) ->
                  (10 <= String.length id)%nat)
  /\ (forall entry, entry ∈ videoTimestamps (handleVideoCounting tabId now st) ->
        entry ∈ videoTimestamps st \/ (10 <= String.length (videoId entry))%nat).
Proof.
  split.
  - intros st1 id H. eapply handleVideoCounting_start_long, H.
  - intros entry. unfold handleVideoCounting.
    destruct (handleVideoCounting_start tabId st) as [st1 [id|]] eqn:E.
    + apply handleVideoCounting_start_long in E as [Hlen Hsame].
      intros H. apply handleVideoCounting_stored_entries in H.
      destruct H as [H | H].
      * left. rewrite <- Hsame. exact H.
      * right. rewrite H. exact Hlen.
    + apply handleVideoCounting_start_none in E. rewrite E. auto.
Qed.

Lemma counted_video_ids_are_long_witness :
  (10 <= String.length "dQw4w9WgXcQ")%nat
  /\ (forall entry,
        entry ∈ videoTimestamps
          (handleVideoCounting 7 3000
             (updateTabData 7 (adMessage "adAAAAAAAAA") true 1000 empty)) ->
        entry ∈ videoTimestamps (updateTabData 7 (adMessage "adAAAAAAAAA") true 1000 empty)
        \/ (10 <= String.length (videoId entry))%nat).
Proof.
  destruct (counted_video_ids_are_long 7 3000
              (updateTabData 7 (adMessage "adAAAAAAAAA") true 1000 empty)) as [H1 H2].
  split; [|exact H2].
  eapply H1. vm_compute. reflexivity.
Defined.

(** ** The per-tab records *)

Lemma updateBadge_debugData tabId hasAd st :
  debugDataByTab (updateBadge tabId hasAd st) = debugDataByTab st.
Proof. unfold updateBadge. destruct (tabId =? 0); reflexivity. Qed.

Lemma updateBadge_ads tabId hasAd st :
  adTimestamps (updateBadge tabId hasAd st) = adTimestamps st.
Proof. unfold updateBadge. destruct (tabId =? 0); reflexivity. Qed.

Lemma handleAdCounting_debugData m tabId hasAd now st :
  debugDataByTab (handleAdCounting m tabId hasAd now st) = debugDataByTab st.
Proof. unfold handleAdCounting. destruct (countedAd _ _ _ _ _); reflexivity. Qed.

Lemma handleVideoCounting_start_frame tabId st :
  debugDataByTab (fst (handleVideoCounting_start tabId st)) = debugDataByTab st
  /\ adTimestamps (fst (handleVideoCounting_start tabId st)) = adTimestamps st.
Proof.
  unfold handleVideoCounting_start.
  destruct (debugDataByTab st !! tabId) as [tabData|]; [|auto].
  destruct (debug_videoId tabData) as [| |id]; auto.
  repeat match goal with
         | |- context [if ?c then _ else _] => destruct c
         end; auto.
Qed.

Lemma handleVideoCounting_stored_frame tabId id now st :
  debugDataByTab (handleVideoCounting_stored tabId id now st) = debugDataByTab st
  /\ adTimestamps (handleVideoCounting_stored tabId id now st) = adTimestamps st.
Proof. unfold handleVideoCounting_stored. destruct (find _ _); auto. Qed.

Lemma handleVideoCounting_frame tabId now st :
  debugDataByTab (handleVideoCounting tabId now st) = debugDataByTab st
  /\ adTimestamps (handleVideoCounting tabId now st) = adTimestamps st.
Proof.
  unfold handleVideoCounting.
  pose proof (handleVideoCounting_start_frame tabId st) as [Hd Ha].
  destruct (handleVideoCounting_start tabId st) as [st1 [id|]]; cbn [fst] in *.
  - pose proof (handleVideoCounting_stored_frame tabId id now st1) as [Hd1 Ha1].
    split; congruence.
  - auto.
Qed.

Lemma handleVideoCounting_debugData tabId now st :
  debugDataByTab (handleVideoCounting tabId now st) = debugDataByTab st.
Proof. apply handleVideoCounting_frame. Qed.

Lemma handleVideoCounting_ads tabId now st :
  adTimestamps (handleVideoCounting tabId now st) = adTimestamps st.
Proof. apply handleVideoCounting_frame. Qed.

Lemma countedAd_countable m tabId hasAd now st adId :
  countedAd m tabId hasAd now st = Some adId ->
  msg_addebug_videoId m = JStr adId /\ hasAd = true /\ countable_ad adId.
Proof.
  unfold countedAd.
  destruct (msg_addebug_videoId m) as [| |s]; try discriminate.
  destruct hasAd; [|discriminate].
  destruct s as [|c s]; [discriminate|].
  destruct (String.eqb_spec (String c s) "empty_video"); [discriminate|].
  cbn. destruct (shouldCount _ _ _); [|discriminate].
  intros [= <-]. repeat split; [discriminate | assumption].
Qed.

Lemma handleAdCounting_entries m tabId hasAd now st entry :
  entry ∈ adTimestamps (handleAdCounting m tabId hasAd now st) ->
  entry ∈ adTimestamps st \/ countable_ad (ae_adId entry).
Proof.
  unfold handleAdCounting.
  destruct (countedAd m tabId hasAd now st) as [adId|] eqn:E; [|auto].
  apply countedAd_countable in E as (_ & _ & Hc).
  cbn. rewrite elem_of_app, list_elem_of_In, filter_In, <- list_elem_of_In.
  rewrite list_elem_of_singleton.
  intros [[H _] | H]; [auto | right; rewrite H; exact Hc].
Qed.

Lemma records_insert tabId d (m : gmap Z TabData) :
  names_ad d ->
  (forall i x, m !! i = Some x -> names_ad x) ->
  forall i x, <[tabId := d]> m !! i = Some x -> names_ad x.
Proof.
  intros Hd Hm i x. rewrite lookup_insert. case_decide.
  - intros [= <-]. exact Hd.
  - apply Hm.
Qed.

Lemma records_delete tabId (m : gmap Z TabData) :
  (forall i x, m !! i = Some x -> names_ad x) ->
  forall i x, delete tabId m !! i = Some x -> names_ad x.
Proof.
  intros Hm i x. rewrite lookup_delete. case_decide; [discriminate|apply Hm].
Qed.

Lemma onVideoDebugAll_records m tabId now st :
  (msg_adActive m = true -> truthy (msg_addebug_videoId m) = true) ->
  records_name_ads st -> records_name_ads (onVideoDebugAll m tabId now st).
Proof.
  intros Hm Hst. unfold records_name_ads, onVideoDebugAll.
  rewrite handleVideoCounting_debugData.
  assert (Hnew : forall vid,
             names_ad {| debugText := msg_debugText m;
                         debugInfo := Some (msg_debugInfo m);
                         adActive := msg_adActive m || truthy (msg_addebug_videoId m);
                         addebug_videoId := msg_addebug_videoId m;
                         debug_videoId := vid;
                         adTypeInfo := msg_adTypeInfo m;
                         lastUpdate := Some now |}).
  { intros vid. unfold names_ad. cbn.
    destruct (msg_adActive m); [auto|]. cbn. auto. }
  assert (Hempty : names_ad (createEmptyTabData now)) by (intros H; discriminate).
  destruct (debugDataByTab st !! tabId) as [cur|] eqn:Ecur.
  - rewrite Ecur.
    match goal with
    | |- context [if ?c then _ else _] => destruct c
    end; [|exact Hst].
    match goal with
    | |- context [if ?c then _ else _] => destruct c
    end.
    + rewrite handleAdCounting_debugData, updateBadge_debugData.
      cbn. apply records_insert; [apply Hnew | exact Hst].
    + cbn. apply records_insert; [apply Hnew | exact Hst].
  - cbn [debugDataByTab set_debugData]. rewrite lookup_insert_eq. cbn [orb].
    rewrite handleAdCounting_debugData, updateBadge_debugData. cbn.
    apply records_insert; [apply Hnew|].
    apply records_insert; [exact Hempty | exact Hst].
Qed.

Lemma onVideoDebugAll_entries m tabId now st entry :
  entry ∈ adTimestamps (onVideoDebugAll m tabId now st) ->
  entry ∈ adTimestamps st \/ countable_ad (ae_adId entry).
Proof.
  unfold onVideoDebugAll. rewrite handleVideoCounting_ads.
  repeat match goal with
         | |- context [if ?c then _ else _] => destruct c
         end;
    try (intros H; apply handleAdCounting_entries in H; revert H;
         rewrite updateBadge_ads);
    cbn; destruct (debugDataByTab st !! tabId); cbn; auto.
Qed.

(** C7, as the code has it. For events as the observer sends them, with
    [adActive] set only together with a non-empty ad id, every step of the
    coordinator keeps this invariant of the per-tab records: an active record
    has a non-empty current ad id. The placeholder [empty_video] is kept out
    of the ad collection, not out of the record: every entry a step adds to
    the ad collection has a non-empty id other than the placeholder. *)
Theorem active_records_name_their_ad (e : Event) (now : Z) (st : State) :
  from_observer e ->
  records_name_ads st ->
  records_name_ads (step e now st)
  /\ (forall entry, entry ∈ adTimestamps (step e now st) ->
        entry ∈ adTimestamps st \/ countable_ad (ae_adId entry)).
Proof.
  intros He Hst.
  destruct e as [message sender activeTab | tabId | tabId]; cbn [step].
  - destruct message as [m| id | | | | | |]; cbn [onMessage].
    + destruct (tab_of sender) as [tabId|]; cbn [snd]; [|auto].
      split; [apply onVideoDebugAll_records; assumption|].
      intros entry. apply onVideoDebugAll_entries.
    + destruct (tab_of sender) as [tabId|]; cbn [snd]; [|auto].
      split; [|rewrite updateBadge_ads; auto].
      unfold records_name_ads. rewrite updateBadge_debugData. exact Hst.
    + cbn [snd]. unfold onAdEnded.
      destruct (tab_of sender) as [tabId|]; [|auto].
      split; [|cbn; rewrite updateBadge_ads; auto].
      unfold records_name_ads. cbn [debugDataByTab set_debugData].
      apply records_insert; [intros H; discriminate|].
      rewrite updateBadge_debugData. exact Hst.
    + cbn. split; [exact Hst|].
      intros entry. rewrite list_elem_of_In, filter_In, <- list_elem_of_In. tauto.
    + cbn. auto.
    + unfold onGetDebugInfo.
      destruct (tab_of sender); [cbn; auto|].
      destruct (tab_of activeTab) as [tabId|]; [|cbn; auto].
      cbn [snd]. split; [|rewrite updateBadge_ads; auto].
      unfold records_name_ads. rewrite updateBadge_debugData. exact Hst.
    + cbn. split; [exact Hst|]. intros entry H. inversion H.
    + cbn. auto.
  - unfold cleanupTabData.
    split; [|rewrite updateBadge_ads].
    + unfold records_name_ads. rewrite updateBadge_debugData.
      destruct (lastAdStateByTab _ !! tabId) as [[|]|]; cbn;
        apply records_delete; exact Hst.
    + destruct (lastAdStateByTab _ !! tabId) as [[|]|]; cbn; auto.
  - split; [|rewrite updateBadge_ads; auto].
    unfold records_name_ads. rewrite updateBadge_debugData. exact Hst.
Qed.

Lemma active_records_name_their_ad_witness :
  records_name_ads
    (step (Incoming (VIDEO_DEBUG_ALL (adMessage "adAAAAAAAAA")) (Some 7) None) 1000 empty)
  /\ (forall entry,
        entry ∈ adTimestamps
          (step (Incoming (VIDEO_DEBUG_ALL (adMessage "adAAAAAAAAA")) (Some 7) None)
             1000 empty) ->
        entry ∈ adTimestamps empty \/ countable_ad (ae_adId entry)).
Proof.
  apply (active_records_name_their_ad
           (Incoming (VIDEO_DEBUG_ALL (adMessage "adAAAAAAAAA")) (Some 7) None) 1000 empty).
  - cbn. reflexivity.
  - intros tabId d H. cbn in H. rewrite lookup_empty in H. discriminate.
Defined.

(** C7 fails as stated: the observer's event for the placeholder ad id makes
    an active record whose current ad id is the placeholder. *)
Lemma placeholder_ad_makes_active_record :
  let e := Incoming (VIDEO_DEBUG_ALL (adMessage "empty_video")) (Some 7) None in
  from_observer e
  /\ (forall tabId d, debugDataByTab empty !! tabId = Some d -> names_real_ad d)
  /\ exists d, debugDataByTab (step e 1000 empty) !! 7 = Some d
       /\ adActive d = true /\ addebug_videoId d = JStr "empty_video"
       /\ ~ names_real_ad d.
Proof.
  cbn zeta. split; [cbn; reflexivity|]. split.
  - intros tabId d H. cbn in H. rewrite lookup_empty in H. discriminate.
  - eexists. split; [vm_compute; reflexivity|].
    split; [reflexivity|]. split; [reflexivity|].
    intros H. destruct (H eq_refl) as [_ Hne]. apply Hne. reflexivity.
Qed.

(** ** Ad counting *)

Lemma shouldCount_same adId t now :
  shouldCount (Some (adId, t)) adId now = (5000 <? now - t).
Proof. cbn. rewrite String.eqb_refl. reflexivity. Qed.

Lemma countedAd_some_iff m tabId now st adId :
  msg_addebug_videoId m = JStr adId ->
  countable_ad adId ->
  countedAd m tabId true now st
  = if shouldCount (lastCountedAdIdByTab st !! tabId) adId now then Some adId else None.
Proof.
  intros Hm [Hne Hph]. unfold countedAd. rewrite Hm.
  destruct adId as [|c adId]; [congruence|].
  destruct (String.eqb_spec (String c adId) "empty_video"); [congruence|].
  reflexivity.
Qed.

Lemma handleAdCounting_last m tabId now st adId :
  countedAd m tabId true now st = Some adId ->
  lastCountedAdIdByTab (handleAdCounting m tabId true now st) !! tabId = Some (adId, now).
Proof.
  intros H. unfold handleAdCounting. rewrite H. cbn. apply lookup_insert_eq.
Qed.

Lemma handleAdCounting_skip m tabId now st :
  countedAd m tabId true now st = None -> handleAdCounting m tabId true now st = st.
Proof. intros H. unfold handleAdCounting. rewrite H. reflexivity. Qed.

(** After a count at [t0], later counts of the same message come more than
    5 s after [t0] and after one another. *)
Lemma countedTimes_after m tabId adId times : forall st t0,
  msg_addebug_videoId m = JStr adId ->
  lastCountedAdIdByTab st !! tabId = Some (adId, t0) ->
  Forall (fun t => 5000 < t - t0) (countedTimes m tabId times st)
  /\ fiveSecondsApart (countedTimes m tabId times st).
Proof.
  induction times as [|now times IH]; intros st t0 Hm Hlast; [split; constructor|].
  cbn [countedTimes].
  destruct (countedAd m tabId true now st) as [a|] eqn:E.
  - pose proof (countedAd_countable _ _ _ _ _ _ E) as (Ha & _ & Hc).
    assert (a = adId) by congruence. subst a.
    assert (Hgap : 5000 < now - t0).
    { rewrite (countedAd_some_iff m tabId now st adId Hm Hc), Hlast,
        shouldCount_same in E.
      destruct (Z.ltb_spec 5000 (now - t0)); [assumption|discriminate]. }
    destruct (IH (handleAdCounting m tabId true now st) now Hm
                (handleAdCounting_last _ _ _ _ _ E)) as [Hall Hs].
    split.
    + constructor; [assumption|].
      eapply Forall_impl; [exact Hall|]. cbn. intros t Ht. lia.
    + constructor; assumption.
  - rewrite (handleAdCounting_skip _ _ _ _ E). apply IH; assumption.
Qed.

Lemma countedTimes_apart m tabId times : forall st,
  fiveSecondsApart (countedTimes m tabId times st).
Proof.
  induction times as [|now times IH]; intros st; [constructor|].
  cbn [countedTimes].
  destruct (countedAd m tabId true now st) as [a|] eqn:E.
  - pose proof (countedAd_countable _ _ _ _ _ _ E) as (Ha & _ & _).
    destruct (countedTimes_after m tabId a times
                (handleAdCounting m tabId true now st) now Ha
                (handleAdCounting_last _ _ _ _ _ E)) as [Hall Hs].
    constructor; assumption.
  - rewrite (handleAdCounting_skip _ _ _ _ E). apply IH.
Qed.

(** C5, as the code has it. An activation with a countable ad id appends an
    entry to the ad collection unless the ad counted last for that tab has
    the same id and was counted at most 5 s before; so in a run of
    activations of one ad on one tab the counts are more than 5 s apart. *)
Theorem ad_counted_unless_last_counted_recently (m : DebugAll) (tabId now : Z)
    (st : State) (adId : string) (times : list Z) :
  msg_addebug_videoId m = JStr adId ->
  countable_ad adId ->
  (lastCountedRecently st tabId adId now -> handleAdCounting m tabId true now st = st)
  /\ (~ lastCountedRecently st tabId adId now ->
      adTimestamps (handleAdCounting m tabId true now st)
      = List.filter (fun item => recent now (ae_timestamp item)) (adTimestamps st)
        ++ [{| ae_adId := adId; ae_timestamp := now; ae_adTypeInfo := msg_adTypeInfo m |}])
  /\ fiveSecondsApart (countedTimes m tabId times st).
Proof.
  intros Hm Hc. split; [|split].
  - intros (t & Hlast & Hle). apply handleAdCounting_skip.
    rewrite (countedAd_some_iff m tabId now st adId Hm Hc), Hlast, shouldCount_same.
    destruct (Z.ltb_spec 5000 (now - t)); [lia|reflexivity].
  - intros Hnot. unfold handleAdCounting.
    rewrite (countedAd_some_iff m tabId now st adId Hm Hc).
    destruct (shouldCount (lastCountedAdIdByTab st !! tabId) adId now) eqn:E;
      [reflexivity|].
    exfalso. apply Hnot. unfold shouldCount in E.
    destruct (lastCountedAdIdByTab st !! tabId) as [[lastId lastTime]|] eqn:El;
      [|discriminate].
    apply orb_false_iff in E as [E1 E2]. apply negb_false_iff, String.eqb_eq in E1.
    subst lastId. exists lastTime. split; [exact El|].
    destruct (Z.ltb_spec 5000 (now - lastTime)); [discriminate|assumption].
  - apply countedTimes_apart.
Qed.

Lemma ad_counted_unless_last_counted_recently_witness :
  (lastCountedRecently empty 7 "adAAAAAAAAA" 1000 ->
   handleAdCounting (adMessage "adAAAAAAAAA") 7 true 1000 empty = empty)
  /\ (~ lastCountedRecently empty 7 "adAAAAAAAAA" 1000 ->
      adTimestamps (handleAdCounting (adMessage "adAAAAAAAAA") 7 true 1000 empty)
      = List.filter (fun item => recent 1000 (ae_timestamp item)) (adTimestamps empty)
        ++ [{| ae_adId := "adAAAAAAAAA"; ae_timestamp := 1000;
               ae_adTypeInfo := msg_adTypeInfo (adMessage "adAAAAAAAAA") |}])
  /\ fiveSecondsApart
       (countedTimes (adMessage "adAAAAAAAAA") 7 [1000; 3000; 7000; 9000] empty).
Proof.
  apply (ad_counted_unless_last_counted_recently
           (adMessage "adAAAAAAAAA") 7 1000 empty "adAAAAAAAAA" [1000; 3000; 7000; 9000]).
  - reflexivity.
  - split; discriminate.
Defined.

(** C5 fails as stated: ad A is counted, then ad B, then ad A again two
    seconds after its first count, all on one tab. *)
Lemma same_ad_counted_twice_within_5s :
  stored (handleAll 7 flicker empty)
  = [("adAAAAAAAAA"%string, 1000); ("adBBBBBBBBB"%string, 2000);
     ("adAAAAAAAAA"%string, 3000)]
  /\ 3000 - 1000 <= 5000.
Proof. split; [vm_compute; reflexivity | lia]. Qed.

End CoordinatorFacts.

(** * Facts about tracking and runs of passes *)

Module TrackingFacts.
Import Observer Tracking.

(** ** Runs of passes *)

Lemma detectAdPosition_tracker p now st :
  adDurationTracker (snd (detectAdPosition p now st)) = adDurationTracker st.
Proof.
  unfold detectAdPosition.
  destruct (video p) as [el|]; [|reflexivity].
  destruct (readVideoTimes p el) as [t d].
  assert (H : forall v, adDurationTracker (updateVideoContext v now t d st)
                        = adDurationTracker st).
  { intros v. unfold updateVideoContext.
    destruct v as [e|]; cbn;
      repeat match goal with
             | |- context [if ?c then _ else _] => destruct c; cbn
             end; reflexivity. }
  destruct (Qgtb t 0 && Qgtb d 0);
    match goal with
    | |- context [if ?c then _ else _] => destruct c
    end; cbn [snd]; auto.
Qed.

Lemma detectAdTypeCommon_tracker p now st :
  adDurationTracker (snd (detectAdTypeCommon p now st)) = adDurationTracker st.
Proof.
  unfold detectAdTypeCommon.
  rewrite ObserverFacts.startAdSequence_tracker.
  destruct (adDurationTracker st) eqn:E.
  - pose proof (detectAdPosition_tracker p now (startAdSequence st)) as H.
    destruct (detectAdPosition p now (startAdSequence st)) as [pos st1].
    cbn [snd] in *. rewrite H, ObserverFacts.startAdSequence_tracker. exact E.
  - cbn. rewrite ObserverFacts.startAdSequence_tracker. exact E.
Qed.

Lemma detectAdTypeCommon_ordinal p now st :
  isInAdSequence st = false ->
  consecutiveAdNumber (fst (detectAdTypeCommon p now st)) = 0.
Proof.
  intros Hseq. unfold detectAdTypeCommon.
  destruct (adDurationTracker (startAdSequence st)).
  - pose proof (ObserverFacts.detectAdPosition_sequence p now (startAdSequence st)) as [_ H].
    destruct (detectAdPosition p now (startAdSequence st)) as [pos st1].
    cbn in *. rewrite H. apply ObserverFacts.startAdSequence_count, Hseq.
  - cbn. apply ObserverFacts.startAdSequence_count, Hseq.
Qed.

Lemma beforePass_ready adId p now st :
  between_passes st ->
  isInAdSequence (beforePass adId p now st) = false
  /\ adDurationTracker (beforePass adId p now st) <> None.
Proof.
  intros [Hseq Htr]. unfold beforePass.
  destruct (bool_decide (lastAdDebugVideoId st = Some adId)) eqn:E; cbn [negb].
  - apply bool_decide_eq_true in E.
    assert (Ht : adDurationTracker st <> None) by (apply Htr; congruence).
    unfold detectConsecutiveAdChange.
    destruct (String.eqb _ _); [auto|].
    destruct (nonempty _); cbn; auto.
  - split; [reflexivity | discriminate].
Qed.

Lemma sampleAd_between adId p now st :
  between_passes st -> between_passes (snd (sampleAd adId p now st)).
Proof.
  intros H. unfold sampleAd. fold (beforePass adId p now st).
  destruct (beforePass_ready adId p now st H) as [Hseq Htr].
  unfold detectAdTypeBasic.
  pose proof (ObserverFacts.detectAdTypeCommon_not_in_sequence p now (beforePass adId p now st)) as H1.
  pose proof (detectAdTypeCommon_tracker p now (beforePass adId p now st)) as H2.
  destruct (detectAdTypeCommon p now (beforePass adId p now st)) as [d st2].
  cbn in *. split; [exact H1|]. intros _. rewrite H2. exact Htr.
Qed.

Lemma sampleAd_descriptor adId p now st :
  between_passes st ->
  consecutiveAdNumber (fst (sampleAd adId p now st)) = 0
  /\ (forall el, video p = Some el ->
        position (fst (sampleAd adId p now st))
        = positionOf el (fst (readVideoTimes p el)) (snd (readVideoTimes p el))).
Proof.
  intros H. unfold sampleAd. fold (beforePass adId p now st).
  destruct (beforePass_ready adId p now st H) as [Hseq Htr].
  unfold detectAdTypeBasic.
  pose proof (detectAdTypeCommon_ordinal p now (beforePass adId p now st) Hseq) as H1.
  assert (H2 : forall el, video p = Some el ->
             position (fst (detectAdTypeCommon p now (beforePass adId p now st)))
             = positionOf el (fst (readVideoTimes p el)) (snd (readVideoTimes p el))).
  { intros el Hel.
    destruct (adDurationTracker (beforePass adId p now st)) as [tr|] eqn:E; [|congruence].
    eapply ObserverFacts.detectAdTypeCommon_own_observation; eassumption. }
  destruct (detectAdTypeCommon p now (beforePass adId p now st)) as [d st2].
  cbn in *. auto.
Qed.

Lemma sampleDescriptors_own ads : forall st,
  between_passes st -> Forall2 own_reading ads (sampleDescriptors ads st).
Proof.
  induction ads as [|[[adId p] now] ads IH]; intros st H; [constructor|].
  cbn [sampleDescriptors].
  pose proof (sampleAd_descriptor adId p now st H) as Hd.
  pose proof (sampleAd_between adId p now st H) as Hb.
  destruct (sampleAd adId p now st) as [d st1]. cbn [fst snd] in *.
  constructor; [exact Hd | apply IH, Hb].
Qed.

(** X1. In every run of passes from the script's initial state, each descriptor
    has sequence number 0 and, when the page has a video element, the
    position of the time and duration read in its own pass: the stored
    sequence context never decides a position. *)
Theorem run_reports_own_readings (ads : list (string * Page * Z)) :
  Forall2 own_reading ads (sampleDescriptors ads initial).
Proof.
  apply sampleDescriptors_own. split; [reflexivity|].
  intros H. exfalso. exact (H eq_refl).
Qed.

(** ** The estimation chain *)

Lemma skip_calculation_of_source updates :
  tracker_source (skip_calculation_of updates).
Proof.
  unfold skip_calculation_of, tracker_source.
  destruct updates as [|u0 [|u1 rest]]; auto.
  destruct (_ && _); auto.
  destruct (_ && _); cbn [bd_source]; auto 6.
Qed.

Lemma progress_duration_source updates :
  tracker_source (progress_duration updates).
Proof.
  unfold progress_duration.
  destruct updates as [|u0 rest]; [left; reflexivity|].
  destruct (List.filter has_total (u0 :: rest)) as [|t0 ts];
    [apply skip_calculation_of_source|].
  destruct (total _); unfold tracker_source; cbn [bd_source]; auto 6.
Qed.

Lemma getBestAdDuration_tracker_source tr v :
  tracker_source (getBestAdDuration tr v).
Proof.
  assert (Hlater : tracker_source
            match video_element_duration v with
            | Some b => b
            | None => progress_duration (progressUpdates tr)
            end).
  { unfold video_element_duration.
    destruct v as [el|]; [|apply progress_duration_source].
    destruct (duration el) as [d|]; [|apply progress_duration_source].
    destruct (_ && _); [|apply progress_duration_source].
    unfold tracker_source; cbn [bd_source]; auto 6. }
  unfold getBestAdDuration.
  destruct (realDuration tr) as [r|]; [|exact Hlater].
  destruct (0 <? r); [|exact Hlater].
  unfold tracker_source; cbn [bd_source]; auto 6.
Qed.

Lemma getBestAdDuration_source tr v :
  let b := getBestAdDuration tr v in
  bd_source b <> estimation /\ bd_source b <> skip_inference
  /\ bd_source b <> dom_text /\ bd_source b <> progress_bar
  /\ (bd_source b = none -> b = no_duration).
Proof.
  cbn zeta.
  destruct (getBestAdDuration_tracker_source tr v) as [H|[H|[H|[H|H]]]];
    rewrite H; repeat split; try discriminate; try reflexivity.
Qed.

Lemma estimateDuration_unfold tr p :
  estimateDuration tr p = useEstimation p (beforeEstimation tr p).
Proof. reflexivity. Qed.

Lemma useBestDuration_measured b l :
  bd_source b <> estimation -> bd_source b <> skip_inference ->
  (bd_source b = none -> b = no_duration) ->
  measured l -> measured (useBestDuration b l).
Proof.
  intros H1 H2 H3 Hl. unfold useBestDuration.
  destruct (Z.ltb_spec 0 (bd_duration b)); [|exact Hl].
  unfold measured. cbn. repeat split; try assumption; try lia.
  - intros _ Hn. rewrite (H3 Hn) in H. cbn in H. lia.
  - contradiction.
  - contradiction.
Qed.

Lemma applyTimeMatch_measured tm l :
  captures_digits (Some tm) -> measured l -> measured (applyTimeMatch tm l).
Proof.
  intros Htm (H0 & _ & _ & _). unfold measured, applyTimeMatch. cbn.
  repeat split; try discriminate.
  destruct tm as [a b|n|]; cbn in *; try lia.
  destruct ((0 <? n) && (n <? 300)); lia.
Qed.

Lemma scanTimeDisplays_measured found : forall l,
  Forall captures_digits found -> measured l -> measured (scanTimeDisplays found l).
Proof.
  induction found as [|m found IH]; intros l Hf Hl; [exact Hl|].
  inversion Hf as [|? ? Hm Hrest]; subst. cbn.
  destruct (negb (l_durationDetected l)); [|auto].
  destruct m as [tm|]; [apply applyTimeMatch_measured; assumption | auto].
Qed.

Lemma useDomText_measured p l :
  page_digits p -> measured l -> measured (useDomText p l).
Proof.
  intros [Hp _] Hl. unfold useDomText.
  destruct (l_adDuration l =? 0); [apply scanTimeDisplays_measured; assumption | exact Hl].
Qed.

Lemma useProgressBar_measured p l :
  page_digits p -> measured l -> measured (useProgressBar p l).
Proof.
  intros [_ Hp] Hl. unfold useProgressBar.
  destruct (l_adDuration l =? 0); [|exact Hl].
  destruct (progressBarLabel p) as [[a b]|]; [|exact Hl].
  unfold measured. cbn. repeat split; try discriminate. lia.
Qed.

Lemma useSkipInference_measured text l :
  measured l -> measured (useSkipInference text l).
Proof.
  intros Hl. unfold useSkipInference.
  destruct ((l_adDuration l =? 0) && nonempty text); [|exact Hl].
  destruct (match_digits text) as [r|]; [|exact Hl].
  destruct (r <=? 6); [|destruct (r <=? 15); [|destruct (r <=? 20); [|exact Hl]]];
    unfold measured, inferred; cbn; repeat split; try discriminate; try lia; auto.
Qed.

Lemma beforeEstimation_measured tr p :
  page_digits p -> measured (beforeEstimation tr p).
Proof.
  intros Hp. unfold beforeEstimation.
  apply useSkipInference_measured, useProgressBar_measured, useDomText_measured;
    try assumption.
  pose proof (getBestAdDuration_source tr (video p)) as (H1 & H2 & _ & _ & H3).
  apply useBestDuration_measured; try assumption.
  unfold measured. cbn. repeat split; try discriminate; try lia; try contradiction.
Qed.

Lemma detectAdTypeCommon_completed p now st tr :
  adDurationTracker st = Some tr ->
  let d := fst (detectAdTypeCommon p now st) in
  let l := estimateDuration tr p in
  type d = adTypeOf (l_isSkippable l) (l_adDuration l) (adContainer p)
  /\ isSkippable d = l_isSkippable l /\ adDuration d = l_adDuration l
  /\ durationSource d = l_durationSource l.
Proof.
  intros Htr. unfold detectAdTypeCommon.
  rewrite ObserverFacts.startAdSequence_tracker, Htr.
  destruct (detectAdPosition p now (startAdSequence st)) as [pos st1].
  cbn. auto.
Qed.

Lemma useEstimation_final p l :
  0 <= l_adDuration l ->
  l_isSkippable (useEstimation p l) = l_isSkippable l
  /\ 0 <= l_adDuration (useEstimation p l)
  /\ (l_adDuration (useEstimation p l) = 0 ->
      l_isSkippable l = false /\ adContainer p = false).
Proof.
  intros H0. unfold useEstimation.
  destruct (Z.eqb_spec (l_adDuration l) 0) as [E|E].
  - destruct (l_isSkippable l), (adContainer p); cbn; repeat split;
      try lia; try discriminate.
  - split; [reflexivity|]. split; [lia|]. intros H. contradiction.
Qed.

Lemma adTypeOf_unknown sk dur c :
  0 <= dur ->
  adTypeOf sk dur c <> non_skippable \/ (sk = false /\ dur = 0 /\ c = true).
Proof.
  intros H0. unfold adTypeOf. destruct sk; [left; discriminate|].
  destruct (Z.ltb_spec 0 dur).
  - left. destruct (dur <=? 6); [discriminate|].
    destruct (dur <=? 15); [discriminate|].
    destruct (dur <=? 30); discriminate.
  - destruct c; [right; repeat split; lia | left; discriminate].
Qed.

Lemma adTypeOf_unknown_iff sk dur c :
  0 <= dur ->
  (adTypeOf sk dur c = unknown_type <-> sk = false /\ dur = 0 /\ c = false).
Proof.
  intros H0. unfold adTypeOf. destruct sk.
  - split; [discriminate | intros [? _]; discriminate].
  - destruct (Z.ltb_spec 0 dur).
    + split; [|intros (_ & ? & _); lia].
      destruct (dur <=? 6); [discriminate|].
      destruct (dur <=? 15); [discriminate|].
      destruct (dur <=? 30); discriminate.
    + destruct c; split; try discriminate.
      * intros (_ & _ & ?); discriminate.
      * intros _. repeat split. lia.
      * reflexivity.
Qed.

(** X2. A pass that completes on a page whose numbers are what digits can spell
    reports a duration that is not negative and never the type
    [non_skippable]: without skip evidence an ad container gives the estimate
    6 and so [bumper]. The type is [unknown] exactly when the duration is 0,
    and then the pass has neither skip evidence nor a container. *)
Theorem completed_pass_type (p : Page) (now : Z) (st : State) (tr : Tracker) :
  adDurationTracker st = Some tr ->
  page_digits p ->
  let d := fst (detectAdTypeCommon p now st) in
  0 <= adDuration d
  /\ type d <> non_skippable
  /\ (type d = unknown_type <-> adDuration d = 0)
  /\ (adDuration d = 0 -> isSkippable d = false /\ adContainer p = false).
Proof.
  intros Htr Hp.
  destruct (detectAdTypeCommon_completed p now st tr Htr) as (Ht & Hs & Hd & _).
  cbn zeta in *. rewrite Ht, Hs, Hd. rewrite estimateDuration_unfold.
  destruct (beforeEstimation_measured tr p Hp) as (H0 & _ & _ & _).
  destruct (useEstimation_final p (beforeEstimation tr p) H0) as (Hsk & Hn & Hz).
  set (f := useEstimation p (beforeEstimation tr p)) in *.
  split; [exact Hn|]. split; [|split].
  - destruct (adTypeOf_unknown (l_isSkippable f) (l_adDuration f) (adContainer p) Hn)
      as [H|(_ & Hd0 & Hc)]; [exact H|].
    destruct (Hz Hd0) as [_ Hc']. congruence.
  - rewrite (adTypeOf_unknown_iff _ _ _ Hn). split.
    + intros (_ & H & _). exact H.
    + intros H. destruct (Hz H) as [H1 H2]. rewrite Hsk. auto.
  - intros H. destruct (Hz H) as [H1 H2]. rewrite Hsk. auto.
Qed.

Lemma completed_pass_type_witness :
  let d := fst (detectAdTypeCommon timedPage 1000 (tracking 0)) in
  0 <= adDuration d
  /\ type d <> non_skippable
  /\ (type d = unknown_type <-> adDuration d = 0)
  /\ (adDuration d = 0 -> isSkippable d = false /\ adContainer timedPage = false).
Proof.
  apply (completed_pass_type timedPage 1000 (tracking 0) (freshTracker 0)).
  - reflexivity.
  - split; [|exact I]. repeat constructor; cbn; lia.
Defined.

(** X3. A pass that completes never reports the source [none]. When the source
    is the skip inference the ad is marked skippable and the duration is 6,
    15 or 20; when it is the final estimate the duration is 30 for a
    skippable ad, 6 for another ad with a container, and 0 otherwise. *)
Theorem completed_pass_source (p : Page) (now : Z) (st : State) (tr : Tracker) :
  adDurationTracker st = Some tr ->
  page_digits p ->
  let d := fst (detectAdTypeCommon p now st) in
  durationSource d <> none
  /\ (durationSource d = skip_inference ->
      isSkippable d = true /\ type d = skippable
      /\ (adDuration d = 6 \/ adDuration d = 15 \/ adDuration d = 20))
  /\ (durationSource d = estimation ->
      adDuration d
      = if isSkippable d then 30 else if adContainer p then 6 else 0).
Proof.
  intros Htr Hp.
  destruct (detectAdTypeCommon_completed p now st tr Htr) as (Ht & Hs & Hd & Hsrc).
  cbn zeta in *. rewrite Ht, Hs, Hd, Hsrc. rewrite estimateDuration_unfold.
  destruct (beforeEstimation_measured tr p Hp) as (H0 & He & Hn & Hi).
  set (l := beforeEstimation tr p) in *.
  unfold useEstimation.
  destruct (Z.eqb_spec (l_adDuration l) 0) as [E|E].
  - destruct (l_isSkippable l), (adContainer p); cbn;
      repeat split; try discriminate; intros; try discriminate; try reflexivity;
      assumption.
  - split; [auto|]. split.
    + intros H. destruct (Hi H) as [H1 H2]. rewrite H1. cbn. auto.
    + intros H. contradiction.
Qed.

Lemma completed_pass_source_witness :
  let d := fst (detectAdTypeCommon skipIn4Page 1000 (tracking 0)) in
  durationSource d <> none
  /\ (durationSource d = skip_inference ->
      isSkippable d = true /\ type d = skippable
      /\ (adDuration d = 6 \/ adDuration d = 15 \/ adDuration d = 20))
  /\ (durationSource d = estimation ->
      adDuration d
      = if isSkippable d then 30 else if adContainer skipIn4Page then 6 else 0).
Proof.
  apply (completed_pass_source skipIn4Page 1000 (tracking 0) (freshTracker 0)).
  - reflexivity.
  - split; [|exact I]. repeat constructor.
Defined.

(** ** Measured durations *)

Lemma Math_round_ms n : Math_round (inject_Z n / 1000)%Q = (n + 500) / 1000.
Proof.
  unfold Math_round, Qdiv, Qmult, Qinv, Qplus, inject_Z, Qfloor. cbn.
  change (Z.pos (1 * 1000)) with 1000. change (Z.pos (1 * 1000 * 2)) with (2 * 1000).
  replace (n * 1 * 2 + 1 * 1000) with (2 * (n + 500)) by lia.
  apply Z.div_mul_cancel_l; lia.
Qed.

Lemma Math_round_nonneg x : (0 < x)%Q -> 0 <= Math_round x.
Proof.
  intros H. unfold Math_round. change 0 with (Qfloor 0). apply Qfloor_resp_le.
  apply Qlt_le_weak. eapply Qlt_trans; [exact H|].
  rewrite <- (Qplus_0_r x) at 1. apply Qplus_lt_r. reflexivity.
Qed.

Lemma Math_round_below_300 x : (x < 300)%Q -> Math_round x <= 300.
Proof.
  intros H. unfold Math_round. change 300 with (Qfloor (300 + (1 # 2))).
  apply Qfloor_resp_le, Qplus_le_l, Qlt_le_weak, H.
Qed.

Lemma Qltb_lt x y : Qltb x y = true -> (x < y)%Q.
Proof.
  unfold Qltb. intros H. apply negb_true_iff in H.
  apply Qnot_le_lt. intros Hle. apply Qle_bool_iff in Hle. congruence.
Qed.

(** X4. Stopping a running tracker at least half a second after its start gives
    the elapsed time rounded to the nearest second; [getBestAdDuration] then
    answers with that duration as real tracking whatever the video element
    shows, and stopping again returns nothing and changes nothing. *)
Theorem stopped_tracker_gives_measured_duration (tr : Tracker) (now later : Z)
    (v : option VideoElement) :
  isTracking tr = true ->
  startTime tr <> 0 -> now <> 0 ->
  500 <= now - startTime tr ->
  let seconds := (now - startTime tr + 500) / 1000 in
  let stopped := stopAdDurationTracking now tr in
  fst stopped = Some seconds
  /\ 1 <= seconds
  /\ getBestAdDuration (snd stopped) v
     = {| bd_duration := seconds; bd_isDetected := true; bd_source := real_tracking |}
  /\ stopAdDurationTracking later (snd stopped) = (None, snd stopped).
Proof.
  intros Htr Hs Hn Hgap. cbn zeta. unfold stopAdDurationTracking. rewrite Htr. cbn [negb].
  destruct (Z.eqb_spec (startTime tr) 0); [contradiction|].
  destruct (Z.eqb_spec now 0); [contradiction|]. cbn [negb andb fst snd].
  rewrite Math_round_ms.
  assert (H1 : 1 <= (now - startTime tr + 500) / 1000).
  { apply Z.div_le_lower_bound; lia. }
  split; [reflexivity|]. split; [exact H1|]. split; [|reflexivity].
  unfold getBestAdDuration. cbn [realDuration].
  destruct (Z.ltb_spec 0 ((now - startTime tr + 500) / 1000)); [reflexivity | lia].
Qed.

Lemma stopped_tracker_gives_measured_duration_witness :
  let stopped := stopAdDurationTracking 16400 (freshTracker 1000) in
  fst stopped = Some ((16400 - 1000 + 500) / 1000)
  /\ 1 <= (16400 - 1000 + 500) / 1000
  /\ getBestAdDuration (snd stopped) (Some (videoAt 3 20))
     = {| bd_duration := (16400 - 1000 + 500) / 1000; bd_isDetected := true;
          bd_source := real_tracking |}
  /\ stopAdDurationTracking 20000 (snd stopped) = (None, snd stopped).
Proof.
  apply (stopped_tracker_gives_measured_duration (freshTracker 1000) 16400 20000
           (Some (videoAt 3 20))).
  - reflexivity.
  - cbn. lia.
  - lia.
  - cbn. lia.
Defined.

Lemma skip_calculation_of_bounds updates :
  0 <= bd_duration (skip_calculation_of updates) <= 300.
Proof.
  unfold skip_calculation_of.
  destruct updates as [|u0 [|u1 rest]]; cbn [bd_duration no_duration]; try lia.
  destruct (_ && _); cbn [bd_duration no_duration]; try lia.
  match goal with
  | |- context [if Qgtb ?e 0 && Qltb ?e 300 then _ else _] =>
      destruct (Qgtb e 0 && Qltb e 300) eqn:E
  end; cbn [bd_duration no_duration]; try lia.
  apply andb_true_iff in E as [E1 E2].
  split; [apply Math_round_nonneg, Qltb_lt, E1 | apply Math_round_below_300, Qltb_lt, E2].
Qed.

Lemma progress_duration_nonneg updates :
  0 <= bd_duration (progress_duration updates).
Proof.
  unfold progress_duration.
  destruct updates as [|u0 rest]; [cbn; lia|].
  destruct (List.filter has_total (u0 :: rest)) as [|t0 ts] eqn:E;
    [apply skip_calculation_of_bounds|].
  assert (Hin : In (List.last (t0 :: ts) t0) (List.filter has_total (u0 :: rest))).
  { rewrite E. destruct (exists_last (l:=t0 :: ts)) as (l' & a & Hl); [discriminate|].
    rewrite Hl, last_last. apply in_or_app. right. left. reflexivity. }
  apply filter_In in Hin as [_ Hin]. unfold has_total in Hin.
  destruct (total (List.last (t0 :: ts) t0)) as [q|]; [|discriminate].
  cbn. apply Math_round_nonneg, Qltb_lt, Hin.
Qed.

Lemma skip_calculation_of_cases updates :
  skip_calculation_of updates = no_duration
  \/ bd_source (skip_calculation_of updates) = skip_calculation.
Proof.
  unfold skip_calculation_of.
  destruct updates as [|u0 [|u1 rest]]; auto.
  destruct (_ && _); auto.
  destruct (_ && _); cbn [bd_source]; auto.
Qed.

Lemma no_duration_bounded : bounded no_duration.
Proof. unfold bounded. cbn. split; [lia|]. split; [lia | discriminate]. Qed.

Lemma progress_duration_bounded updates : bounded (progress_duration updates).
Proof.
  split; [apply progress_duration_nonneg|].
  unfold progress_duration.
  destruct updates as [|u0 rest]; [apply no_duration_bounded|].
  destruct (List.filter has_total (u0 :: rest)) as [|t0 ts].
  - pose proof (skip_calculation_of_bounds (u0 :: rest)) as Hb.
    destruct (skip_calculation_of_cases (u0 :: rest)) as [Hs|Hs]; rewrite Hs.
    + apply no_duration_bounded.
    + split; [intros _; lia | discriminate].
  - destruct (total _); [|apply no_duration_bounded].
    cbn. split; [intros [H|H]; discriminate | discriminate].
Qed.

(** X5. [getBestAdDuration] never answers a negative duration; a duration read
    off the video element or extrapolated from the skip countdown is at most
    300 seconds, and a duration from real tracking is positive. *)
Theorem best_duration_bounds (tr : Tracker) (v : option VideoElement) :
  let b := getBestAdDuration tr v in
  0 <= bd_duration b
  /\ (bd_source b = video_element \/ bd_source b = skip_calculation ->
      bd_duration b <= 300)
  /\ (bd_source b = real_tracking -> 0 < bd_duration b).
Proof.
  cbn zeta. change (bounded (getBestAdDuration tr v)).
  assert (Hlater : bounded match video_element_duration v with
                           | Some b => b
                           | None => progress_duration (progressUpdates tr)
                           end).
  { unfold video_element_duration.
    destruct v as [el|]; [|apply progress_duration_bounded].
    destruct (duration el) as [d|]; [|apply progress_duration_bounded].
    destruct (Qgtb d 0 && Qltb d 300) eqn:E; [|apply progress_duration_bounded].
    apply andb_true_iff in E as [E1 E2]. unfold bounded. cbn [bd_duration bd_source].
    split; [apply Math_round_nonneg, Qltb_lt, E1|].
    split; [intros _; apply Math_round_below_300, Qltb_lt, E2 | discriminate]. }
  unfold getBestAdDuration.
  destruct (realDuration tr) as [r|]; [|exact Hlater].
  destruct (Z.ltb_spec 0 r); [|exact Hlater].
  unfold bounded. cbn. split; [lia|]. split; [|auto]. intros [H0|H0]; discriminate.
Qed.

(** ** The progress observer *)

Lemma recordProgress_observed info tr :
  total info = None ->
  observed (progressUpdates tr) -> observed (progressUpdates (recordProgress info tr)).
Proof.
  intros Hi [Hlen Hall]. unfold recordProgress. cbn [progressUpdates].
  assert (Hp : Forall (fun u => total u = None) (progressUpdates tr ++ [info])).
  { apply Forall_app. split; [exact Hall | repeat constructor; exact Hi]. }
  assert (Hl : length (progressUpdates tr ++ [info]) = S (length (progressUpdates tr))).
  { rewrite length_app. cbn. lia. }
  destruct (Nat.ltb_spec 10 (length (progressUpdates tr ++ [info]))).
  - split.
    + destruct (progressUpdates tr ++ [info]) as [|x l]; cbn in *; lia.
    + destruct (progressUpdates tr ++ [info]) as [|x l]; [constructor|].
      cbn. inversion Hp; assumption.
  - split; [lia | exact Hp].
Qed.

Lemma observeProgress_observed texts : forall tr,
  observed (progressUpdates tr) -> observed (progressUpdates (observeProgress texts tr)).
Proof.
  induction texts as [|[text now] texts IH]; intros tr H; [exact H|].
  cbn [observeProgress]. unfold progressInfoOf.
  destruct (match_digits text) as [n|]; [|apply IH, H].
  apply IH, recordProgress_observed; [reflexivity | exact H].
Qed.

Lemma observeProgress_realDuration texts : forall tr,
  realDuration (observeProgress texts tr) = realDuration tr.
Proof.
  induction texts as [|[text now] texts IH]; intros tr; [reflexivity|].
  cbn [observeProgress]. destruct (progressInfoOf text now); rewrite IH; reflexivity.
Qed.

Lemma filter_has_total_observed updates :
  Forall (fun u => total u = None) updates -> List.filter has_total updates = [].
Proof.
  induction 1 as [|u updates Hu _ IH]; [reflexivity|].
  cbn. unfold has_total at 1. rewrite Hu. exact IH.
Qed.

(** X6. Whatever texts the progress observer sees after tracking starts, the
    tracker holds at most 10 progress updates, and [getBestAdDuration] never
    answers from a progress total or from real tracking: the observer's
    entries carry no total, and only stopping the tracker measures. *)
Theorem observed_progress_is_bounded (start : Z) (texts : list (string * Z))
    (v : option VideoElement) :
  let tr := observeProgress texts (freshTracker start) in
  (length (progressUpdates tr) <= 10)%nat
  /\ bd_source (getBestAdDuration tr v) <> progress_total
  /\ bd_source (getBestAdDuration tr v) <> real_tracking.
Proof.
  cbn zeta.
  destruct (observeProgress_observed texts (freshTracker start)) as [Hlen Hall].
  { split; [cbn; lia | constructor]. }
  split; [exact Hlen|].
  unfold getBestAdDuration. rewrite observeProgress_realDuration. cbn [realDuration freshTracker].
  set (updates := progressUpdates (observeProgress texts (freshTracker start))) in *.
  assert (Hp : bd_source (progress_duration updates) <> progress_total
               /\ bd_source (progress_duration updates) <> real_tracking).
  { unfold progress_duration. destruct updates as [|u0 rest] eqn:E; [split; discriminate|].
    rewrite (filter_has_total_observed _ Hall).
    destruct (skip_calculation_of_cases (u0 :: rest)) as [Hs|Hs]; rewrite Hs;
      split; discriminate. }
  unfold video_element_duration.
  destruct v as [el|]; [|exact Hp].
  destruct (duration el) as [d|]; [|exact Hp].
  destruct (_ && _); [split; discriminate | exact Hp].
Qed.

(** ** Positions *)

(** X7. The advanced classifier, given a video that has ended or is buffered
    through ([readyState] 4), never answers mid-roll; and once a pause time
    or a context time is stored, the start time passed to it is not read. *)
Theorem classifier_on_buffered_video (el : VideoElement) (st : State) (t t' d : Q) :
  ((ended el = true \/ 4 <= readyState el) ->
   detectarPosicionAnuncio (Some el) st t d <> mid_roll)
  /\ (Qgtb (videoPauseTime st) 0 = true \/ Qgtb (lastVideoContextTime st) 0 = true ->
      detectarPosicionAnuncio (Some el) st t d = detectarPosicionAnuncio (Some el) st t' d).
Proof.
  split.
  - intros H. unfold detectarPosicionAnuncio.
    assert (He : ended el || (4 <=? readyState el) = true).
    { destruct H as [H|H]; [rewrite H; reflexivity|].
      apply orb_true_iff. right. apply Z.leb_le, H. }
    rewrite He, orb_true_r. cbn [orb].
    repeat match goal with
           | |- context [if ?c then _ else _] => destruct c
           end; discriminate.
  - intros H. unfold detectarPosicionAnuncio.
    destruct (Qgtb (videoPauseTime st) 0) eqn:E1; [reflexivity|].
    destruct H as [H|H]; [discriminate|]. rewrite H. reflexivity.
Qed.

Lemma classifier_on_buffered_video_witness :
  detectarPosicionAnuncio
    (Some {| currentTime := 300; duration := Some 600%Q; ended := false;
             paused := false; readyState := 4 |}) initial 300 600 <> mid_roll
  /\ detectarPosicionAnuncio (Some (videoAt 5 600))
       (set_context 300 600 0 initial) 5 600
     = detectarPosicionAnuncio (Some (videoAt 5 600))
         (set_context 300 600 0 initial) 580 600.
Proof.
  destruct (classifier_on_buffered_video
              {| currentTime := 300; duration := Some 600%Q; ended := false;
                 paused := false; readyState := 4 |} initial 300 300 600) as [H1 _].
  destruct (classifier_on_buffered_video (videoAt 5 600)
              (set_context 300 600 0 initial) 5 580 600) as [_ H2].
  split; [apply H1; right; cbn; lia | apply H2; right; reflexivity].
Defined.

Lemma positionOf_paused el t d :
  paused el = true -> Qgtb d 0 = true -> positionOf el t d <> post_roll.
Proof.
  intros Hp Hd. unfold positionOf. rewrite Hd, Hp, andb_false_r.
  destruct (_ || _); discriminate.
Qed.

(** X8. While the video element is paused and the pass reads a positive host
    duration, a detection pass never answers post-roll, not even when the
    element has ended. *)
Theorem paused_video_is_not_post_roll (p : Page) (now : Z) (st : State)
    (tr : Tracker) (el : VideoElement) :
  adDurationTracker st = Some tr ->
  isInAdSequence st = false ->
  video p = Some el ->
  paused el = true ->
  Qgtb (snd (readVideoTimes p el)) 0 = true ->
  position (fst (detectAdTypeCommon p now st)) <> post_roll.
Proof.
  intros Htr Hseq Hv Hp Hd.
  rewrite (ObserverFacts.detectAdTypeCommon_own_observation p now st el tr Hv Htr Hseq).
  apply positionOf_paused; assumption.
Qed.

Lemma paused_video_is_not_post_roll_witness :
  position (fst (detectAdTypeCommon (pausedPage 598 600) 1000 (tracking 0))) <> post_roll.
Proof.
  apply (paused_video_is_not_post_roll (pausedPage 598 600) 1000 (tracking 0)
           (freshTracker 0)
           {| currentTime := 598; duration := Some 600%Q; ended := true;
              paused := true; readyState := 4 |}); reflexivity.
Defined.

(** X9. The host duration of a pass is the player response's length whenever
    that is given and not 0: the progress bar and the video element only
    fill in for a missing length. *)
Theorem player_response_length_wins (p : Page) (el : VideoElement) (l : Q) :
  lengthSeconds p = Some l ->
  Qeq_bool l 0 = false ->
  snd (readVideoTimes p el) = l.
Proof.
  intros Hl Hz. unfold readVideoTimes. rewrite Hl.
  destruct (ariaValueNow p) as [progress|], (ariaValueMax p) as [max|];
    try destruct (Qgtb max 0); rewrite ?Hz;
    repeat match goal with
           | |- context [if ?c then _ else _] => destruct c
           end; cbn [snd]; rewrite ?Hz; reflexivity.
Qed.

Lemma player_response_length_wins_witness :
  snd (readVideoTimes (adPlayingPage 1 15 600) (videoAt 1 15)) = 600%Q.
Proof.
  apply (player_response_length_wins (adPlayingPage 1 15 600) (videoAt 1 15) 600);
    reflexivity.
Defined.

End TrackingFacts.

(** * Facts about the content script's ad watcher *)

Module ContentScriptFacts.
Import Coordinator ContentScript.

Lemma checkAdStatus_cases id st :
  (snd (checkAdStatus id st) = None
   /\ lastAdDebugId (fst (checkAdStatus id st)) = lastAdDebugId st
   /\ lastAdState (fst (checkAdStatus id st)) = lastAdState st)
  \/ (snd (checkAdStatus id st) = Some (NoticeAdDetected id)
      /\ truthy id = true /\ id <> lastAdDebugId st
      /\ lastAdDebugId (fst (checkAdStatus id st)) = id
      /\ lastAdState (fst (checkAdStatus id st)) = true).
Proof.
  unfold checkAdStatus.
  destruct (negb (Bool.eqb (truthy id) (lastAdState st)) || strict_ne id (lastAdDebugId st))
    eqn:Echanged; [|left; auto].
  destruct (truthy id && strict_ne id (lastAdDebugId st)) eqn:Enew.
  - right. apply andb_true_iff in Enew as [Ht Hne].
    unfold strict_ne in Hne. apply negb_true_iff, bool_decide_eq_false in Hne.
    cbn. auto.
  - change (1 <=? 0) with false. rewrite andb_false_r. left. auto.
Qed.

Lemma notices_fresh ids : forall st, fresh_ads (lastAdDebugId st) (notices ids st).
Proof.
  induction ids as [|id ids IH]; intros st; [exact I|].
  cbn [notices].
  pose proof (checkAdStatus_cases id st) as H.
  destruct (checkAdStatus id st) as [st1 n]. cbn [fst snd] in H.
  destruct H as [(Hn & Hid & _) | (Hn & Ht & Hne & Hid & _)]; subst n.
  - rewrite <- Hid. apply IH.
  - cbn [fresh_ads]. split; [exact Ht|]. split; [exact Hne|].
    rewrite <- Hid at 1. apply IH.
Qed.

(** X10. In every run of [checkAdStatus], whatever ad ids the page gives, no
    end-of-ad notice is ever asked for: the branch that would send it tests a
    counter the same call has just reset. Every notice announces a non-empty
    ad id other than the one announced before it, so an ad that comes back
    after a break is not announced again; and once an ad was seen the watcher
    keeps saying so. *)
Theorem watcher_never_reports_ad_end (ids : list jsval) (id : jsval) (st : State) :
  fresh_ads (lastAdDebugId st) (notices ids st)
  /\ snd (checkAdStatus id st) <> Some NoticeAdEnded
  /\ (lastAdState st = true -> lastAdState (fst (checkAdStatus id st)) = true).
Proof.
  split; [apply notices_fresh|].
  destruct (checkAdStatus_cases id st) as [(Hn & _ & Hs) | (Hn & _ & _ & _ & Hs)];
    rewrite Hn, Hs; split; auto; discriminate.
Qed.

Lemma watcher_never_reports_ad_end_witness :
  fresh_ads JNull
    (notices [JStr "adAAAAAAAAA"; JNull; JNull; JStr "adAAAAAAAAA"; JStr "adBBBBBBBBB"]
       initial)
  /\ snd (checkAdStatus JNull
            {| lastAdDebugId := JStr "adAAAAAAAAA"; lastAdState := true;
               stableAdCheckCount := 3 |}) <> Some NoticeAdEnded
  /\ lastAdState (fst (checkAdStatus JNull
            {| lastAdDebugId := JStr "adAAAAAAAAA"; lastAdState := true;
               stableAdCheckCount := 3 |})) = true.
Proof.
  destruct (watcher_never_reports_ad_end
              [JStr "adAAAAAAAAA"; JNull; JNull; JStr "adAAAAAAAAA"; JStr "adBBBBBBBBB"]
              JNull initial) as (H1 & _ & _).
  destruct (watcher_never_reports_ad_end [] JNull
              {| lastAdDebugId := JStr "adAAAAAAAAA"; lastAdState := true;
                 stableAdCheckCount := 3 |}) as (_ & H2 & H3).
  split; [exact H1|]. split; [exact H2 | apply H3; reflexivity].
Defined.

End ContentScriptFacts.

(** * More facts about the coordinator *)

Module CoordinatorMore.
Import Coordinator ContentScript.

(** ** Records, for any property of a record *)

Section Records.
Variable P : TabData -> Prop.

Local Abbreviation all_records := (every_record P).

Lemma all_records_insert tabId d st (m : gmap Z TabData) :
  debugDataByTab st = <[tabId := d]> m ->
  P d -> (forall i x, m !! i = Some x -> P x) -> all_records st.
Proof.
  intros E Hd Hm i x. rewrite E, lookup_insert. case_decide.
  - intros [= <-]. exact Hd.
  - apply Hm.
Qed.

Lemma all_records_same st st' :
  debugDataByTab st' = debugDataByTab st -> all_records st -> all_records st'.
Proof. intros E H i x. rewrite E. apply H. Qed.

Hypothesis P_empty : forall now, P (createEmptyTabData now).
Hypothesis P_ended : forall old,
  P {| debugText := debugText old; debugInfo := debugInfo old; adActive := false;
       addebug_videoId := JNull; debug_videoId := debug_videoId old;
       adTypeInfo := adTypeInfo old; lastUpdate := lastUpdate old |}.

Lemma onVideoDebugAll_all_records m tabId now st :
  (forall vid, P {| debugText := msg_debugText m;
                    debugInfo := Some (msg_debugInfo m);
                    adActive := msg_adActive m || truthy (msg_addebug_videoId m);
                    addebug_videoId := msg_addebug_videoId m;
                    debug_videoId := vid;
                    adTypeInfo := msg_adTypeInfo m;
                    lastUpdate := Some now |}) ->
  all_records st -> all_records (onVideoDebugAll m tabId now st).
Proof.
  intros Hnew Hst. unfold onVideoDebugAll.
  eapply all_records_same; [apply CoordinatorFacts.handleVideoCounting_debugData|].
  destruct (debugDataByTab st !! tabId) as [cur|] eqn:Ecur.
  - rewrite Ecur.
    match goal with
    | |- context [if ?c then _ else _] => destruct c
    end; [|exact Hst].
    match goal with
    | |- context [if ?c then _ else _] => destruct c
    end.
    + eapply all_records_same;
        [rewrite CoordinatorFacts.handleAdCounting_debugData,
           CoordinatorFacts.updateBadge_debugData; reflexivity|].
      eapply all_records_insert; [reflexivity | apply Hnew | exact Hst].
    + eapply all_records_insert; [reflexivity | apply Hnew | exact Hst].
  - cbn [debugDataByTab set_debugData]. rewrite lookup_insert_eq. cbn [orb].
    eapply all_records_same;
      [rewrite CoordinatorFacts.handleAdCounting_debugData,
         CoordinatorFacts.updateBadge_debugData; reflexivity|].
    eapply all_records_insert; [reflexivity | apply Hnew |].
    intros i x. cbn. rewrite lookup_insert. case_decide.
    + intros [= <-]. apply P_empty.
    + apply Hst.
Qed.

Lemma step_all_records e now st :
  (forall m sender activeTab vid,
     e = Incoming (VIDEO_DEBUG_ALL m) sender activeTab ->
     P {| debugText := msg_debugText m;
          debugInfo := Some (msg_debugInfo m);
          adActive := msg_adActive m || truthy (msg_addebug_videoId m);
          addebug_videoId := msg_addebug_videoId m;
          debug_videoId := vid;
          adTypeInfo := msg_adTypeInfo m;
          lastUpdate := Some now |}) ->
  all_records st -> all_records (step e now st).
Proof.
  intros He Hst.
  destruct e as [message sender activeTab | tabId | tabId]; cbn [step].
  - destruct message as [m| id | | | | | |]; cbn [onMessage].
    + destruct (tab_of sender) as [tabId|]; cbn [snd]; [|exact Hst].
      apply onVideoDebugAll_all_records; [|exact Hst].
      intros vid. eapply He. reflexivity.
    + destruct (tab_of sender) as [tabId|]; cbn [snd]; [|exact Hst].
      eapply all_records_same; [apply CoordinatorFacts.updateBadge_debugData | exact Hst].
    + cbn [snd]. unfold onAdEnded.
      destruct (tab_of sender) as [tabId|]; [|exact Hst].
      eapply all_records_insert; [reflexivity | apply P_ended |].
      intros i x. rewrite CoordinatorFacts.updateBadge_debugData. apply Hst.
    + exact Hst.
    + exact Hst.
    + unfold onGetDebugInfo.
      destruct (tab_of sender); [exact Hst|].
      destruct (tab_of activeTab) as [tabId|]; [|exact Hst].
      cbn [snd].
      eapply all_records_same; [apply CoordinatorFacts.updateBadge_debugData | exact Hst].
    + exact Hst.
    + exact Hst.
  - unfold cleanupTabData.
    eapply all_records_same; [apply CoordinatorFacts.updateBadge_debugData|].
    intros i x.
    destruct (lastAdStateByTab _ !! tabId) as [[|]|]; cbn;
      rewrite lookup_delete; case_decide; try discriminate; apply Hst.
  - eapply all_records_same; [apply CoordinatorFacts.updateBadge_debugData | exact Hst].
Qed.

End Records.

(** X11. With the content script of this repository as the sender, every step of
    the coordinator keeps [adActive] equal to "the record has a non-empty ad
    id" in every per-tab record. *)
Theorem active_exactly_with_ad_id (e : Event) (now : Z) (st : Coordinator.State) :
  forwarded e ->
  records_active_iff_ad st ->
  records_active_iff_ad (step e now st).
Proof.
  intros He Hst.
  apply (step_all_records active_iff_ad); [reflexivity | reflexivity | | exact Hst].
  intros m sender activeTab vid ->. destruct He as [d ->].
  unfold active_iff_ad. cbn. apply orb_diag.
Qed.

Lemma active_exactly_with_ad_id_witness :
  records_active_iff_ad
    (step (Incoming (VIDEO_DEBUG_ALL (forwardDebugAll (pageWithAd "empty_video")))
             (Some 7) None) 1000 empty).
Proof.
  apply (active_exactly_with_ad_id
           (Incoming (VIDEO_DEBUG_ALL (forwardDebugAll (pageWithAd "empty_video")))
              (Some 7) None) 1000 empty).
  - exists (pageWithAd "empty_video"). reflexivity.
  - intros tabId d H. cbn in H. rewrite lookup_empty in H. discriminate.
Defined.

(** ** The two collections *)




Lemma updateBadge_videos tabId hasAd st :
  videoTimestamps (updateBadge tabId hasAd st) = videoTimestamps st.
Proof. unfold updateBadge. destruct (tabId =? 0); reflexivity. Qed.

Lemma handleAdCounting_videos m tabId hasAd now st :
  videoTimestamps (handleAdCounting m tabId hasAd now st) = videoTimestamps st.
Proof. unfold handleAdCounting. destruct (countedAd _ _ _ _ _); reflexivity. Qed.

Lemma NoDup_filter_map {A B} (f : A -> B) (keep : A -> bool) (l : list A) :
  NoDup (map f l) -> NoDup (map f (List.filter keep l)).
Proof.
  induction l as [|a l IH]; [auto|].
  cbn. rewrite !NoDup_cons. intros [Hn Hd].
  destruct (keep a); [|auto].
  cbn. rewrite NoDup_cons. split; [|auto].
  intros Hin. apply Hn.
  rewrite list_elem_of_In, in_map_iff in *.
  destruct Hin as (x & Hx & Hin). apply filter_In in Hin as [Hin _]. eauto.
Qed.

Lemma handleVideoCounting_stored_one_entry tabId id now st :
  one_entry_per_video st -> one_entry_per_video (handleVideoCounting_stored tabId id now st).
Proof.
  unfold one_entry_per_video, handleVideoCounting_stored. intros Hnd.
  destruct (find _ _) eqn:Efind; cbn [videoTimestamps set_videos]; [exact Hnd|].
  rewrite map_app. cbn [map]. apply NoDup_app. split; [|split].
  - apply NoDup_filter_map, Hnd.
  - intros x Hx. rewrite list_elem_of_singleton. intros ->.
    rewrite list_elem_of_In, in_map_iff in Hx. destruct Hx as (e & He & Hin).
    apply filter_In in Hin as [Hin Hr].
    eapply find_none in Efind; [|exact Hin]. cbn in Efind.
    rewrite He, String.eqb_refl, Hr in Efind. discriminate.
  - apply NoDup_singleton.
Qed.

Lemma handleVideoCounting_start_videos tabId st :
  videoTimestamps (fst (handleVideoCounting_start tabId st)) = videoTimestamps st.
Proof.
  unfold handleVideoCounting_start.
  destruct (debugDataByTab st !! tabId) as [tabData|]; [|auto].
  destruct (debug_videoId tabData) as [| |id]; auto.
  repeat match goal with
         | |- context [if ?c then _ else _] => destruct c
         end; auto.
Qed.

Lemma handleVideoCounting_one_entry tabId now st :
  one_entry_per_video st -> one_entry_per_video (handleVideoCounting tabId now st).
Proof.
  intros H. unfold handleVideoCounting.
  pose proof (handleVideoCounting_start_videos tabId st) as Hs.
  destruct (handleVideoCounting_start tabId st) as [st1 [id|]]; cbn [fst] in Hs.
  - apply handleVideoCounting_stored_one_entry. unfold one_entry_per_video. rewrite Hs. exact H.
  - unfold one_entry_per_video. rewrite Hs. exact H.
Qed.

(** X13. Every step of the coordinator keeps the video collection free of
    repeated ids: an id is stored again only after its entry has left the
    24-hour window. *)
Theorem video_collection_has_one_entry_per_id (e : Event) (now : Z)
    (st : Coordinator.State) :
  one_entry_per_video st -> one_entry_per_video (step e now st).
Proof.
  intros H.
  destruct e as [message sender activeTab | tabId | tabId]; cbn [step].
  - destruct message as [m| id | | | | | |]; cbn [onMessage].
    + destruct (tab_of sender) as [tabId|]; cbn [snd]; [|exact H].
      unfold onVideoDebugAll. apply handleVideoCounting_one_entry.
      unfold one_entry_per_video.
      repeat match goal with
             | |- context [if ?c then _ else _] => destruct c
             end;
        rewrite ?handleAdCounting_videos, ?updateBadge_videos; cbn;
        destruct (debugDataByTab st !! tabId); exact H.
    + destruct (tab_of sender) as [tabId|]; cbn [snd]; [|exact H].
      unfold one_entry_per_video. rewrite updateBadge_videos. exact H.
    + cbn [snd]. unfold onAdEnded.
      destruct (tab_of sender) as [tabId|]; [|exact H].
      unfold one_entry_per_video. cbn. rewrite updateBadge_videos. exact H.
    + exact H.
    + unfold one_entry_per_video. cbn. apply NoDup_filter_map, H.
    + unfold onGetDebugInfo.
      destruct (tab_of sender); [exact H|].
      destruct (tab_of activeTab) as [tabId|]; [|exact H].
      cbn [snd]. unfold one_entry_per_video. rewrite updateBadge_videos. exact H.
    + unfold one_entry_per_video. cbn. apply NoDup_nil_2.
    + exact H.
  - unfold cleanupTabData, one_entry_per_video. rewrite updateBadge_videos.
    destruct (lastAdStateByTab _ !! tabId) as [[|]|]; exact H.
  - unfold one_entry_per_video. rewrite updateBadge_videos. exact H.
Qed.

Lemma video_collection_has_one_entry_per_id_witness :
  one_entry_per_video
    (step (Incoming (VIDEO_DEBUG_ALL (adMessage "adAAAAAAAAA")) (Some 7) None) 1000 empty).
Proof.
  apply (video_collection_has_one_entry_per_id
           (Incoming (VIDEO_DEBUG_ALL (adMessage "adAAAAAAAAA")) (Some 7) None) 1000 empty).
  apply NoDup_nil_2.
Defined.

(** ** Video counting, repeated *)

Lemma handleVideoCounting_start_settled tabId st tabData id :
  debugDataByTab st !! tabId = Some tabData ->
  debug_videoId tabData = JStr id ->
  lastCountedVideoIdByTab st !! tabId = Some id ->
  handleVideoCounting_start tabId st = (st, None).
Proof.
  intros Hrec Hid Hlast. unfold handleVideoCounting_start. rewrite Hrec, Hid.
  destruct (_ || _); [reflexivity|].
  rewrite bool_decide_eq_true_2 by exact Hlast. reflexivity.
Qed.

Lemma handleVideoCounting_stored_settled tabId id now st :
  debugDataByTab (handleVideoCounting_stored tabId id now st) = debugDataByTab st
  /\ lastCountedVideoIdByTab (handleVideoCounting_stored tabId id now st) !! tabId = Some id.
Proof.
  unfold handleVideoCounting_stored.
  destruct (find _ _); cbn; split; try reflexivity; apply lookup_insert_eq.
Qed.

(** X14. Video counting is idempotent: once it has run for a tab, running it
    again for the same record, at whatever later time, changes nothing. *)
Theorem video_counting_is_idempotent (tabId now later : Z) (st : Coordinator.State) :
  handleVideoCounting tabId later (handleVideoCounting tabId now st)
  = handleVideoCounting tabId now st.
Proof.
  remember (handleVideoCounting tabId now st) as r eqn:Hr.
  assert (Hsame : handleVideoCounting_start tabId st = (st, None) -> r = st ->
                  handleVideoCounting tabId later r = r).
  { intros E ->. unfold handleVideoCounting. rewrite E. reflexivity. }
  assert (Hsettled : forall tabData id,
             debugDataByTab r !! tabId = Some tabData ->
             debug_videoId tabData = JStr id ->
             lastCountedVideoIdByTab r !! tabId = Some id ->
             handleVideoCounting tabId later r = r).
  { intros tabData id H1 H2 H3. unfold handleVideoCounting.
    rewrite (handleVideoCounting_start_settled tabId r tabData id H1 H2 H3). reflexivity. }
  unfold handleVideoCounting in Hr.
  destruct (handleVideoCounting_start tabId st) as [st1 o] eqn:E.
  pose proof E as E0.
  unfold handleVideoCounting_start in E.
  destruct (debugDataByTab st !! tabId) as [tabData|] eqn:Erec.
  2:{ injection E as <- <-. auto. }
  destruct (debug_videoId tabData) as [| |id] eqn:Eid.
  1,2: injection E as <- <-; auto.
  destruct (negb (nonempty id) || (String.length id <? 10)%nat
            || bool_decide (JStr id = addebug_videoId tabData)).
  { injection E as <- <-. auto. }
  destruct (bool_decide (lastCountedVideoIdByTab st !! tabId = Some id)).
  { injection E as <- <-. auto. }
  destruct (bool_decide (id ∈ globalVideoProcessing st)).
  - injection E as <- <-. subst r. apply (Hsettled tabData id); auto.
    cbn. apply lookup_insert_eq.
  - injection E as <- <-. subst r.
    destruct (handleVideoCounting_stored_settled tabId id now
                (set_videos (lastCountedVideoIdByTab st)
                   ({[id]} ∪ globalVideoProcessing st) (videoTimestamps st) st))
      as [Hd Hl].
    apply (Hsettled tabData id); auto. rewrite Hd. exact Erec.
Qed.

(** ** Reset, tab removal and flicker *)

(** X15. [RESET_COUNTERS] also clears the 5-second guard: the next activation of
    a countable ad on any tab is counted, and is then the only entry of the
    ad collection, even when the same ad was counted just before the reset. *)
Theorem reset_clears_the_guard (st : Coordinator.State) (sender activeTab : option Z)
    (m : DebugAll) (tabId now0 now : Z) (adId : string) :
  msg_addebug_videoId m = JStr adId ->
  countable_ad adId ->
  let fresh := snd (onMessage RESET_COUNTERS sender activeTab now0 st) in
  adTimestamps (handleAdCounting m tabId true now fresh)
  = [{| ae_adId := adId; ae_timestamp := now; ae_adTypeInfo := msg_adTypeInfo m |}]
  /\ fst (onMessage GET_ADS_LAST_24H sender activeTab now
            (handleAdCounting m tabId true now fresh)) = Count 1.
Proof.
  intros Hm Hc. cbn zeta. cbn [onMessage onResetCounters snd].
  assert (E : countedAd m tabId true now (set_videos ∅ ∅ [] (set_ads ∅ [] st)) = Some adId).
  { rewrite (CoordinatorFacts.countedAd_some_iff m tabId now _ adId Hm Hc).
    cbn. rewrite lookup_empty. reflexivity. }
  unfold handleAdCounting. rewrite E. cbn.
  split; [reflexivity|].
  unfold recent. replace (now - now) with 0 by lia. reflexivity.
Qed.

Lemma reset_clears_the_guard_witness :
  let counted := handleAdCounting (adMessage "adAAAAAAAAA") 7 true 1000 empty in
  let fresh := snd (onMessage RESET_COUNTERS None None 1500 counted) in
  adTimestamps (handleAdCounting (adMessage "adAAAAAAAAA") 7 true 2000 fresh)
  = [{| ae_adId := "adAAAAAAAAA"; ae_timestamp := 2000;
        ae_adTypeInfo := msg_adTypeInfo (adMessage "adAAAAAAAAA") |}]
  /\ fst (onMessage GET_ADS_LAST_24H None None 2000
            (handleAdCounting (adMessage "adAAAAAAAAA") 7 true 2000 fresh)) = Count 1.
Proof.
  apply (reset_clears_the_guard
           (handleAdCounting (adMessage "adAAAAAAAAA") 7 true 1000 empty)
           None None (adMessage "adAAAAAAAAA") 7 1500 2000 "adAAAAAAAAA").
  - reflexivity.
  - split; discriminate.
Defined.

(** X16. Closing a tab removes that tab's record and its two last-counted marks,
    leaves the badge state of the tab recorded as off, and touches neither
    the two collections nor the record of any other tab. *)
Theorem closing_a_tab_keeps_the_counters (tabId other now : Z) (st : Coordinator.State) :
  tabId <> 0 ->
  other <> tabId ->
  let closed := step (TabRemoved tabId) now st in
  debugDataByTab closed !! tabId = None
  /\ lastCountedVideoIdByTab closed !! tabId = None
  /\ lastCountedAdIdByTab closed !! tabId = None
  /\ lastAdStateByTab closed !! tabId = Some false
  /\ adTimestamps closed = adTimestamps st
  /\ videoTimestamps closed = videoTimestamps st
  /\ debugDataByTab closed !! other = debugDataByTab st !! other
  /\ lastCountedAdIdByTab closed !! other = lastCountedAdIdByTab st !! other
  /\ lastCountedVideoIdByTab closed !! other = lastCountedVideoIdByTab st !! other.
Proof.
  intros Htab Hother. cbn zeta. cbn [step]. unfold cleanupTabData, updateBadge.
  destruct (Z.eqb_spec tabId 0); [contradiction|].
  destruct (lastAdStateByTab st !! tabId) as [[|]|] eqn:E; cbn; rewrite ?E; cbn;
    rewrite !lookup_delete_eq, !lookup_insert_eq, !lookup_delete_ne by congruence;
    repeat split.
Qed.

Lemma closing_a_tab_keeps_the_counters_witness :
  let st := handleAll 7 flicker empty in
  let closed := step (TabRemoved 7) 5000 st in
  debugDataByTab closed !! 7 = None
  /\ lastCountedVideoIdByTab closed !! 7 = None
  /\ lastCountedAdIdByTab closed !! 7 = None
  /\ lastAdStateByTab closed !! 7 = Some false
  /\ adTimestamps closed = adTimestamps st
  /\ videoTimestamps closed = videoTimestamps st
  /\ debugDataByTab closed !! 8 = debugDataByTab st !! 8
  /\ lastCountedAdIdByTab closed !! 8 = lastCountedAdIdByTab st !! 8
  /\ lastCountedVideoIdByTab closed !! 8 = lastCountedVideoIdByTab st !! 8.
Proof.
  apply (closing_a_tab_keeps_the_counters 7 8 5000 (handleAll 7 flicker empty)); lia.
Defined.

Lemma countedAd_guarded m tabId hasAd now st adId t0 :
  msg_addebug_videoId m = JStr adId ->
  lastCountedAdIdByTab st !! tabId = Some (adId, t0) ->
  now - t0 <= 5000 ->
  countedAd m tabId hasAd now st = None.
Proof.
  intros Hm Hlast Hgap. unfold countedAd. rewrite Hm, Hlast.
  destruct (_ && _); [|reflexivity].
  rewrite CoordinatorFacts.shouldCount_same.
  destruct (Z.ltb_spec 5000 (now - t0)); [lia | reflexivity].
Qed.

Lemma updateBadge_lastCounted tabId hasAd st :
  lastCountedAdIdByTab (updateBadge tabId hasAd st) = lastCountedAdIdByTab st.
Proof. unfold updateBadge. destruct (tabId =? 0); reflexivity. Qed.

Lemma onVideoDebugAll_guarded m tabId now st adId t0 :
  msg_addebug_videoId m = JStr adId ->
  lastCountedAdIdByTab st !! tabId = Some (adId, t0) ->
  now - t0 <= 5000 ->
  adTimestamps (onVideoDebugAll m tabId now st) = adTimestamps st.
Proof.
  intros Hm Hlast Hgap. unfold onVideoDebugAll.
  rewrite CoordinatorFacts.handleVideoCounting_ads.
  assert (Hskip : forall st', lastCountedAdIdByTab st' = lastCountedAdIdByTab st ->
             handleAdCounting m tabId (msg_adActive m || truthy (msg_addebug_videoId m))
               now st' = st').
  { intros st' E. unfold handleAdCounting.
    rewrite (countedAd_guarded m tabId _ now st' adId t0); auto. rewrite E. exact Hlast. }
  repeat match goal with
         | |- context [if ?c then _ else _] => destruct c
         end;
    rewrite ?Hskip by (rewrite updateBadge_lastCounted; destruct (debugDataByTab st !! tabId);
                       reflexivity);
    rewrite ?CoordinatorFacts.updateBadge_ads; cbn;
    destruct (debugDataByTab st !! tabId); reflexivity.
Qed.

(** X17. The flicker guard at the listener: when an ad was counted for a tab at
    most 5 s ago, an end-of-ad message followed by the same ad becoming
    active again adds nothing to the ad collection. *)
Theorem ad_back_within_5s_is_not_counted (st : Coordinator.State) (m : DebugAll)
    (tabId t0 now1 now2 : Z) (adId : string) :
  tabId <> 0 ->
  msg_addebug_videoId m = JStr adId ->
  lastCountedAdIdByTab st !! tabId = Some (adId, t0) ->
  now2 - t0 <= 5000 ->
  adTimestamps (handleAll tabId [(AD_ENDED, now1); (VIDEO_DEBUG_ALL m, now2)] st)
  = adTimestamps st.
Proof.
  intros Htab Hm Hlast Hgap. cbn [handleAll onMessage snd]. unfold tab_of, onAdEnded, tab_of.
  destruct (Z.eqb_spec tabId 0); [contradiction|]. cbn [snd].
  rewrite (onVideoDebugAll_guarded m tabId now2 _ adId t0); auto.
  - cbn. rewrite CoordinatorFacts.updateBadge_ads. reflexivity.
  - cbn. rewrite updateBadge_lastCounted. exact Hlast.
Qed.

Lemma ad_back_within_5s_is_not_counted_witness :
  let st := handleAdCounting (adMessage "adAAAAAAAAA") 7 true 1000 empty in
  adTimestamps
    (handleAll 7 [(AD_ENDED, 2000); (VIDEO_DEBUG_ALL (adMessage "adAAAAAAAAA"), 3000)] st)
  = adTimestamps st.
Proof.
  apply (ad_back_within_5s_is_not_counted
           (handleAdCounting (adMessage "adAAAAAAAAA") 7 true 1000 empty)
           (adMessage "adAAAAAAAAA") 7 1000 2000 3000 "adAAAAAAAAA").
  - lia.
  - reflexivity.
  - reflexivity.
  - lia.
Defined.

End CoordinatorMore.

(** * Facts about the memory sweep *)

Module SweepFacts.
Import Coordinator Sweep.

Lemma insertRecent_perm now x l : insertRecent now x l ≡ₚ x :: l.
Proof.
  induction l as [|y l IH]; cbn; [reflexivity|].
  destruct (_ <? _); [reflexivity|].
  rewrite IH. apply Permutation_swap.
Qed.

Lemma fold_insertRecent_perm now l : forall sorted,
  fold_left (fun sorted x => insertRecent now x sorted) l sorted ≡ₚ l ++ sorted.
Proof.
  induction l as [|x l IH]; intros sorted; cbn; [reflexivity|].
  rewrite IH, insertRecent_perm. symmetry. apply Permutation_middle.
Qed.

Lemma mostRecentFirst_perm now l : mostRecentFirst now l ≡ₚ l.
Proof. unfold mostRecentFirst. rewrite fold_insertRecent_perm, app_nil_r. reflexivity. Qed.

Lemma insertRecent_sorted now x l :
  StronglySorted (recentFirst now) l -> StronglySorted (recentFirst now) (insertRecent now x l).
Proof.
  induction 1 as [|y l Hs IH Hy]; cbn; [repeat constructor|].
  destruct (Z.ltb_spec (lastUpdate_or now y.2) (lastUpdate_or now x.2)).
  - constructor; [constructor; assumption|].
    constructor; [unfold recentFirst; lia|].
    eapply Forall_impl; [exact Hy|]. unfold recentFirst. cbn. intros z Hz. lia.
  - constructor; [exact IH|].
    rewrite insertRecent_perm. constructor; [unfold recentFirst; lia | exact Hy].
Qed.

Lemma mostRecentFirst_sorted now l :
  StronglySorted (recentFirst now) (mostRecentFirst now l).
Proof.
  unfold mostRecentFirst.
  assert (H : forall sorted, StronglySorted (recentFirst now) sorted ->
            StronglySorted (recentFirst now)
              (fold_left (fun sorted x => insertRecent now x sorted) l sorted)).
  { induction l as [|x l IH]; intros sorted Hs; cbn; [exact Hs|].
    apply IH, insertRecent_sorted, Hs. }
  apply H. constructor.
Qed.

Lemma sorted_entries_perm now (m : gmap Z TabData) :
  mostRecentFirst now (entries m) ≡ₚ map_to_list m.
Proof. rewrite mostRecentFirst_perm. apply merge_sort_Permutation. Qed.

Lemma sorted_entries_NoDup now (m : gmap Z TabData) :
  NoDup (mostRecentFirst now (entries m)).*1.
Proof. rewrite sorted_entries_perm. apply NoDup_fst_map_to_list. Qed.

Lemma kept_entries_NoDup now (m : gmap Z TabData) :
  NoDup (take maxEntries (mostRecentFirst now (entries m))).*1.
Proof.
  rewrite fmap_take. eapply sublist_NoDup; [apply sorted_entries_NoDup|].
  apply sublist_take.
Qed.

Lemma capRecords_lookup now (m : gmap Z TabData) k d :
  capRecords now m !! k = Some d -> m !! k = Some d.
Proof.
  unfold capRecords. destruct (_ <? _)%nat; [|auto].
  intros H. apply elem_of_list_to_map_2 in H.
  apply elem_of_map_to_list. rewrite <- (sorted_entries_perm now).
  rewrite <- (take_drop maxEntries (mostRecentFirst now (entries m))).
  apply elem_of_app. left. exact H.
Qed.

Lemma capRecords_size now (m : gmap Z TabData) :
  (size (capRecords now m) <= maxEntries)%nat.
Proof.
  unfold capRecords.
  destruct (Nat.ltb_spec maxEntries (length (entries m))) as [H|H].
  - rewrite map_size_list_to_map by apply kept_entries_NoDup.
    rewrite length_take. lia.
  - rewrite <- length_map_to_list.
    unfold entries in H. rewrite merge_sort_Permutation in H. exact H.
Qed.

(** X18. A sweep without memory pressure leaves at most 50 per-tab records
    and at most 25 ids being processed; every record it leaves was there
    before, unchanged, and was updated at most 15 minutes ago; it drops
    last-counted marks but never adds one, and it leaves the two stored
    collections and the badge states as they were. *)
Theorem sweep_bounds_the_records (now : Z) (st : State) :
  let swept := cleanupMemory false now st in
  (size (debugDataByTab swept) <= 50)%nat
  /\ (size (globalVideoProcessing swept) <= 25)%nat
  /\ (forall k d, debugDataByTab swept !! k = Some d ->
        debugDataByTab st !! k = Some d /\ now - lastUpdate_or 0 d <= maxAge)
  /\ (forall k v, lastCountedVideoIdByTab swept !! k = Some v ->
        lastCountedVideoIdByTab st !! k = Some v)
  /\ (forall k a, lastCountedAdIdByTab swept !! k = Some a ->
        lastCountedAdIdByTab st !! k = Some a)
  /\ adTimestamps swept = adTimestamps st
  /\ videoTimestamps swept = videoTimestamps st
  /\ lastAdStateByTab swept = lastAdStateByTab st.
Proof.
  cbn zeta. unfold cleanupMemory.
  cbn [debugDataByTab globalVideoProcessing lastCountedVideoIdByTab lastCountedAdIdByTab
       adTimestamps videoTimestamps lastAdStateByTab].
  split; [|split; [|split; [|split; [|split]]]].
  - etransitivity; [apply map_size_filter | apply capRecords_size].
  - destruct (Nat.ltb_spec maxProcessing (size (globalVideoProcessing st))) as [H|H];
      [rewrite size_empty; lia | exact H].
  - intros k d H. apply map_lookup_filter_Some in H as [H Hfresh]. cbn in Hfresh.
    split; [eapply capRecords_lookup, H|].
    unfold stale in Hfresh. rewrite H in Hfresh.
    destruct (Z.ltb_spec maxAge (now - lastUpdate_or 0 d)); [discriminate | assumption].
  - intros k v H. apply map_lookup_filter_Some in H as [H _]. exact H.
  - intros k a H. apply map_lookup_filter_Some in H as [H _]. exact H.
  - auto.
Qed.

(** X19. The cap evicts the least recently updated records: a record the
    cap keeps was updated no earlier than any record it drops, a record
    without a [lastUpdate] counting as updated now. *)
Theorem cap_evicts_least_recent (now : Z) (m : gmap Z TabData) (k k' : Z)
    (d d' : TabData) :
  capRecords now m !! k = Some d ->
  m !! k' = Some d' ->
  capRecords now m !! k' = None ->
  lastUpdate_or now d' <= lastUpdate_or now d.
Proof.
  intros Hkept Hm Hdropped. unfold capRecords in Hkept, Hdropped.
  destruct (maxEntries <? length (entries m))%nat; [|congruence].
  apply elem_of_list_to_map_2 in Hkept.
  assert (Hin : (k', d') ∈ mostRecentFirst now (entries m)).
  { rewrite sorted_entries_perm. apply elem_of_map_to_list, Hm. }
  pose proof (mostRecentFirst_sorted now (entries m)) as Hs.
  rewrite <- (take_drop maxEntries (mostRecentFirst now (entries m))) in Hin, Hs.
  apply elem_of_app in Hin as [Hin|Hin].
  - apply (elem_of_list_to_map (M := gmap Z)) in Hin; [congruence|].
    apply kept_entries_NoDup.
  - exact (StronglySorted_app_1_elem_of _ _ _ _ _ Hs Hkept Hin).
Qed.

Lemma cap_evicts_least_recent_witness :
  lastUpdate_or 100000 (recordAt 1000) <= lastUpdate_or 100000 (recordAt 51000).
Proof.
  apply (cap_evicts_least_recent 100000 manyTabs 51 1); vm_compute; reflexivity.
Defined.

(** X20. After a sweep without memory pressure, at a time later than the
    retention age, every last-counted video mark left belongs to a tab whose
    record is still there; but the last-counted ad mark of a tab without a
    video mark is never removed by the sweep. *)
Theorem sweep_and_the_marks (now : Z) (st : State) :
  maxAge < now ->
  let swept := cleanupMemory false now st in
  (forall k v, lastCountedVideoIdByTab swept !! k = Some v ->
     is_Some (debugDataByTab swept !! k))
  /\ (forall k a, lastCountedAdIdByTab st !! k = Some a ->
        lastCountedVideoIdByTab st !! k = None ->
        lastCountedAdIdByTab swept !! k = Some a).
Proof.
  intros Hnow. cbn zeta. unfold cleanupMemory.
  cbn [debugDataByTab lastCountedVideoIdByTab lastCountedAdIdByTab]. split.
  - intros k v H. apply map_lookup_filter_Some in H as [_ Hfresh]. cbn in Hfresh.
    unfold stale in Hfresh.
    destruct (capRecords now (debugDataByTab st) !! k) as [d|] eqn:E.
    + exists d. apply map_lookup_filter_Some. split; [exact E|].
      cbn. unfold stale. rewrite E. exact Hfresh.
    + destruct (Z.ltb_spec maxAge (now - 0)); [discriminate | lia].
  - intros k a Ha Hv. apply map_lookup_filter_Some. split; [exact Ha|].
    cbn. intros [[v Hsome] _]. congruence.
Qed.

Lemma sweep_and_the_marks_witness :
  let swept := cleanupMemory false 5400000 twoTabs in
  (forall k v, lastCountedVideoIdByTab swept !! k = Some v ->
     is_Some (debugDataByTab swept !! k))
  /\ (forall k a, lastCountedAdIdByTab twoTabs !! k = Some a ->
        lastCountedVideoIdByTab twoTabs !! k = None ->
        lastCountedAdIdByTab swept !! k = Some a).
Proof.
  apply (sweep_and_the_marks 5400000 twoTabs). vm_compute. reflexivity.
Defined.

End SweepFacts.
